(** * Wheatley moderation: the [Ban] component (ban.ts)

    A shallow embedding of [src/components/moderation/ban.ts].  The two
    command handlers are asynchronous TypeScript methods that talk to
    Discord, to MongoDB and to the component's sleep list.  They are
    embedded as computations in a state-and-exception monad over a [World]
    that holds the moderation collection, the guild's ban list, the sleep
    list and a trace of every outside call with its outcome.

    A thrown exception leaves the world as the throwing call left it (a
    JavaScript exception does not undo effects), so the monad returns the
    world on both branches. *)

From Stdlib Require Import String ZArith List Bool Lia DecimalString.
Import ListNotations.

Open Scope string_scope.
Open Scope Z_scope.
Open Scope list_scope.

Set Implicit Arguments.

(** ** Data model *)

(** Discord ids are strings at run time. *)
Definition snowflake := string.

(** [mongo.ObjectId], kept abstract as an integer key. *)
Definition ObjectId := Z.

(** [moderation_type] is a union of string literals; [ban.ts] only names
    the literal ["ban"]. *)
Definition moderation_type := string.

(** The fields of [Discord.User] that the handlers read. *)
Record User := {
  User_id : snowflake;
  User_displayName : string
}.

(** The fields of [Discord.GuildMember] that the handlers read. *)
Record GuildMember := {
  GuildMember_id : snowflake;
  GuildMember_displayName : string
}.

(** [moderation_edit_info], the shape of [removed] and [expunged]. *)
Record moderation_edit_info := {
  edit_moderator : snowflake;
  edit_moderator_name : string;
  edit_reason : option string;
  edit_timestamp : Z
}.

(** [basic_moderation_with_user]: what [is_moderation_applied] reads. *)
Record basic_moderation_with_user := {
  basic_type : moderation_type;
  basic_user : snowflake
}.

(** [moderation_entry] as the object literal of [ban_handler] builds it.
    [duration] is [number | null]; [None] is the indefinite sentinel. *)
Record moderation_entry := {
  case_number : Z;
  user : snowflake;
  user_name : string;
  moderator : snowflake;
  moderator_name : string;
  type : moderation_type;
  reason : option string;
  issued_at : Z;
  duration : option Z;
  active : bool;
  removed : option moderation_edit_info;
  expunged : option moderation_edit_info;
  link : string
}.

(** [mongo.WithId<moderation_entry>]. *)
Record WithId := {
  _id : ObjectId;
  doc : moderation_entry
}.

(** A [moderation_entry] is structurally a [basic_moderation_with_user]. *)
Definition as_basic (m : moderation_entry) : basic_moderation_with_user :=
  {| basic_type := type m; basic_user := user m |}.

(** A JavaScript number as [parse_nullable_duration] returns it: a span in
    milliseconds or [Infinity]. *)
Inductive number :=
| Finite (ms : Z)
| Infinity.

(** What the handlers read from a [TextBasedCommand]. *)
Record TextBasedCommand := {
  command_user : User;
  command_member : GuildMember;
  command_url : string
}.

(** Thrown values. *)
Inductive exn :=
| AssertionError
| DiscordAPIError (message : string)
| Error (message : string).

(** The query and the update document of the one [findOneAndUpdate] call. *)
Record moderation_filter := {
  filter_user : snowflake;
  filter_type : moderation_type;
  filter_active : bool
}.

Record moderation_update := {
  set_active : bool;
  set_removed : option moderation_edit_info
}.

(** The embed posted to the staff action log. *)
Record embed := {
  embed_title : string;
  embed_case : WithId;
  embed_user : User
}.

(** ** Outside calls and their trace *)

Inductive call :=
| get_member_call
| bans_fetch_call (target : snowflake)
| members_fetch_call (target : snowflake)
| member_ban_call (target : snowflake) (why : option string)
| members_unban_call (target : snowflake) (why : option string)
| users_fetch_call (target : snowflake)
| reply_with_error_call (message : string)
| reply_with_success_action_call (target : User) (action : string)
    (is_default_duration is_default_reason : bool) (case : option Z)
| notify_user_call (target : User) (action : string) (m : moderation_entry)
| insert_call (m : moderation_entry)
| findOneAndUpdate_call (f : moderation_filter) (u : moderation_update)
| sleep_list_insert_call (fire_at : Z) (key : ObjectId)
| sleep_list_remove_call (key : ObjectId)
| staff_action_log_send_call (e : embed)
| critical_error_call (e : exn)
| M_info_call (message : string).

Inductive outcome :=
| Done
| Raised (e : exn).

(** ** The world *)

Record World := {
  moderations : list WithId;        (* wheatley.database.moderations *)
  bans : list snowflake;            (* wheatley.TCCPP.bans *)
  members : list GuildMember;       (* wheatley.TCCPP.members *)
  users : list User;                (* wheatley.client.users *)
  sleep_list : list (Z * ObjectId); (* pending expiries: fire time, record *)
  now : Z;                          (* Date.now() *)
  next_case : Z;
  next_id : ObjectId;
  faults : list (option exn);       (* failure schedule of outside calls *)
  trace : list (call * outcome)
}.

Definition set_moderations (v : list WithId) (w : World) : World :=
  {| moderations := v; bans := bans w; members := members w; users := users w;
     sleep_list := sleep_list w; now := now w; next_case := next_case w;
     next_id := next_id w; faults := faults w; trace := trace w |}.

Definition set_bans (v : list snowflake) (w : World) : World :=
  {| moderations := moderations w; bans := v; members := members w;
     users := users w; sleep_list := sleep_list w; now := now w;
     next_case := next_case w; next_id := next_id w; faults := faults w;
     trace := trace w |}.

Definition set_members (v : list GuildMember) (w : World) : World :=
  {| moderations := moderations w; bans := bans w; members := v;
     users := users w; sleep_list := sleep_list w; now := now w;
     next_case := next_case w; next_id := next_id w; faults := faults w;
     trace := trace w |}.

Definition set_sleep_list (v : list (Z * ObjectId)) (w : World) : World :=
  {| moderations := moderations w; bans := bans w; members := members w;
     users := users w; sleep_list := v; now := now w;
     next_case := next_case w; next_id := next_id w; faults := faults w;
     trace := trace w |}.

Definition set_counters (c : Z) (i : ObjectId) (w : World) : World :=
  {| moderations := moderations w; bans := bans w; members := members w;
     users := users w; sleep_list := sleep_list w; now := now w;
     next_case := c; next_id := i; faults := faults w; trace := trace w |}.

Definition set_faults (v : list (option exn)) (w : World) : World :=
  {| moderations := moderations w; bans := bans w; members := members w;
     users := users w; sleep_list := sleep_list w; now := now w;
     next_case := next_case w; next_id := next_id w; faults := v;
     trace := trace w |}.

Definition log (c : call) (o : outcome) (w : World) : World :=
  {| moderations := moderations w; bans := bans w; members := members w;
     users := users w; sleep_list := sleep_list w; now := now w;
     next_case := next_case w; next_id := next_id w; faults := faults w;
     trace := trace w ++ [(c, o)] |}.

(** ** The monad *)

Inductive result (A : Type) :=
| Ok (a : A)
| Throw (e : exn).

Arguments Ok {A} a.
Arguments Throw {A} e.

Definition M (A : Type) := World -> result A * World.

Definition ret {A} (a : A) : M A := fun w => (Ok a, w).

Definition throw {A} (e : exn) : M A := fun w => (Throw e, w).

Definition bind {A B} (m : M A) (k : A -> M B) : M B :=
  fun w =>
    match m w with
    | (Ok a, w1) => k a w1
    | (Throw e, w1) => (Throw e, w1)
    end.

(** [try { body } catch (e) { handler }] around awaited steps. *)
Definition try_catch {A} (body : M A) (handler : exn -> M A) : M A :=
  fun w =>
    match body w with
    | (Ok a, w1) => (Ok a, w1)
    | (Throw e, w1) => handler e w1
    end.

Declare Scope M_scope.
Delimit Scope M_scope with M.
Notation "x <- m ;; k" := (bind m (fun x => k))
  (at level 100, m at next level, right associativity) : M_scope.
Notation "m ;; k" := (bind m (fun _ => k))
  (at level 100, right associativity) : M_scope.
Open Scope M_scope.

Definition outcome_of {A} (r : result A) : outcome :=
  match r with
  | Ok _ => Done
  | Throw e => Raised e
  end.

(** An outside call.  The head of the failure schedule decides whether the
    call is cut short by an exception of the environment; otherwise its
    effect runs.  Either way the call and its outcome are traced. *)
Definition external {A} (c : call) (effect : M A) : M A :=
  fun w =>
    let w0 := set_faults (tl (faults w)) w in
    match hd None (faults w) with
    | Some e => (Throw e, log c (Raised e) w0)
    | None => let (r, w1) := effect w0 in (r, log c (outcome_of r) w1)
    end.

(** A synchronous call into the component's own memory or logger: traced,
    never cut short. *)
Definition internal (c : call) (effect : World -> World) : M unit :=
  fun w => (Ok tt, log c Done (effect w)).

(** How a [try] block of an [async] function is left.  [return p] with a
    promise [p] that is not awaited leaves the block at once: the function's
    own promise adopts [p], so a rejection of [p] is not seen by the [catch]
    clause of the block. *)
Inductive completion :=
| Normal
| Return (p : M unit).

Definition settle (block : M completion) : M unit :=
  c <- block ;;
  match c with
  | Normal => ret tt
  | Return p => p
  end.

(** ** Discord, MongoDB and the sleep list *)

Definition is_snowflake (s : snowflake) (x : snowflake) : bool := String.eqb s x.

Definition is_banned (target : snowflake) (w : World) : bool :=
  existsb (is_snowflake target) (bans w).

(** [wheatley.TCCPP.bans.fetch(user)]: rejects (Unknown Ban) when the guild
    has no ban for the user. *)
Definition bans_fetch (target : snowflake) : M unit :=
  external (bans_fetch_call target)
    (fun w => if is_banned target w then (Ok tt, w)
              else (Throw (DiscordAPIError "Unknown Ban"), w)).

(** [wheatley.TCCPP.members.fetch(user)]: rejects (Unknown Member) when the
    user is not in the guild. *)
Definition members_fetch (target : snowflake) : M GuildMember :=
  external (members_fetch_call target)
    (fun w =>
       match find (fun m => String.eqb (GuildMember_id m) target) (members w) with
       | Some m => (Ok m, w)
       | None => (Throw (DiscordAPIError "Unknown Member"), w)
       end).

(** [member.ban({ reason })]. *)
Definition member_ban (member : GuildMember) (why : option string) : M unit :=
  external (member_ban_call (GuildMember_id member) why)
    (fun w =>
       (Ok tt,
        set_members
          (filter (fun m => negb (String.eqb (GuildMember_id m) (GuildMember_id member)))
                  (members w))
          (set_bans (bans w ++ [GuildMember_id member]) w))).

(** [wheatley.TCCPP.members.unban(user, reason)]: rejects (Unknown Ban)
    when there is no ban to lift. *)
Definition members_unban (target : snowflake) (why : option string) : M unit :=
  external (members_unban_call target why)
    (fun w =>
       if is_banned target w
       then (Ok tt, set_bans (filter (fun b => negb (is_snowflake target b)) (bans w)) w)
       else (Throw (DiscordAPIError "Unknown Ban"), w)).

(** [wheatley.client.users.fetch(id)]. *)
Definition users_fetch (target : snowflake) : M User :=
  external (users_fetch_call target)
    (fun w =>
       match find (fun u => String.eqb (User_id u) target) (users w) with
       | Some u => (Ok u, w)
       | None => (Throw (DiscordAPIError "Unknown User"), w)
       end).

(** [command.get_member()]. *)
Definition get_member (command : TextBasedCommand) : M GuildMember :=
  external get_member_call (ret (command_member command)).

(** [Date.now()]. *)
Definition Date_now : M Z := fun w => (Ok (now w), w).

(** [M.info(message)]. *)
Definition M_info (message : string) : M unit :=
  internal (M_info_call message) (fun w => w).

(** The query of [findOneAndUpdate]: all three fields must agree. *)
Definition matches (f : moderation_filter) (d : WithId) : bool :=
  String.eqb (user (doc d)) (filter_user f)
  && String.eqb (type (doc d)) (filter_type f)
  && Bool.eqb (active (doc d)) (filter_active f).

(** [{ $set: { active, removed } }] applied to one document. *)
Definition apply_update (u : moderation_update) (d : WithId) : WithId :=
  {| _id := _id d;
     doc := {| case_number := case_number (doc d);
               user := user (doc d);
               user_name := user_name (doc d);
               moderator := moderator (doc d);
               moderator_name := moderator_name (doc d);
               type := type (doc d);
               reason := reason (doc d);
               issued_at := issued_at (doc d);
               duration := duration (doc d);
               active := set_active u;
               removed := set_removed u;
               expunged := expunged (doc d);
               link := link (doc d) |} |}.

(** The first matching document is updated in place; the collection is
    returned with it, together with the document after the update
    ([returnDocument: "after"]) or [None] ([null]) when nothing matches. *)
Fixpoint find_one_and_update (f : moderation_filter) (u : moderation_update)
    (docs : list WithId) : option WithId * list WithId :=
  match docs with
  | [] => (None, [])
  | d :: rest =>
      if matches f d then (Some (apply_update u d), apply_update u d :: rest)
      else
        let (found, rest') := find_one_and_update f u rest in
        (found, d :: rest')
  end.

(** [wheatley.database.moderations.findOneAndUpdate(filter, update,
    { returnDocument: "after" })]: one atomic step on the collection. *)
Definition findOneAndUpdate (f : moderation_filter) (u : moderation_update)
    : M (option WithId) :=
  external (findOneAndUpdate_call f u)
    (fun w =>
       let (found, docs) := find_one_and_update f u (moderations w) in
       (Ok found, set_moderations docs w)).

(** [this.sleep_list.remove(id)]: drops the pending expiry of a record;
    nothing happens when there is none. *)
Definition sleep_list_remove (key : ObjectId) : M unit :=
  internal (sleep_list_remove_call key)
    (fun w => set_sleep_list (filter (fun e => negb (snd e =? key)) (sleep_list w)) w).

(** [wheatley.channels.staff_action_log.send({ embeds: [e] })]. *)
Definition staff_action_log_send (e : embed) : M unit :=
  external (staff_action_log_send_call e) (ret tt).

(** ** Helpers imported from moderation-common and utils *)

(** Modelled from the spec: [reply_with_error] (moderation-common.ts is not
    under src/).  It reports a failure text to the issuing command; it is
    awaited in the source, so it is an outside call that can reject. *)
Definition reply_with_error (command : TextBasedCommand) (message : string) : M unit :=
  external (reply_with_error_call message) (ret tt).

(** Modelled from the spec: [reply_with_success_action] (moderation-common.ts
    is not under src/).  It replies with the success summary; the case number
    is passed by [ban_handler] only. *)
Definition reply_with_success_action (command : TextBasedCommand) (target : User)
    (action : string) (is_default_duration is_default_reason : bool)
    (case : option Z) : M unit :=
  external
    (reply_with_success_action_call target action is_default_duration
       is_default_reason case)
    (ret tt).

(** Modelled from the spec: [critical_error] (utils/debugging-and-logging.ts
    is not under src/), the internal critical-error sink.  It is called
    without [await]. *)
Definition critical_error (e : exn) : M unit :=
  internal (critical_error_call e) (fun w => w).

(** Modelled from the spec: [ModerationComponent.notify_user]
    (moderation-common.ts is not under src/), the notification sent to the
    target before the action. *)
Definition notify_user (command : TextBasedCommand) (target : User)
    (action : string) (moderation : moderation_entry) : M unit :=
  external (notify_user_call target action moderation) (ret tt).

(** Modelled from the spec: [Modlogs.case_summary(entry, user).setTitle(t)]
    (modlogs.ts is not under src/); the embed keeps what it was built from. *)
Definition case_summary_titled (entry : WithId) (about : User) (title : string) : embed :=
  {| embed_title := title; embed_case := entry; embed_user := about |}.

(** Template-literal rendering of an integer. *)
Definition show_Z (z : Z) : string := NilZero.string_of_int (Z.to_int z).

(** [assert(cond)] of Node's strict assert. *)
Definition strict_assert (cond : bool) : M unit :=
  if cond then ret tt else throw AssertionError.

Definition is_null {A} (v : option A) : bool :=
  match v with
  | None => true
  | Some _ => false
  end.

(** [a ?? b]. *)
Definition nullish {A} (a b : option A) : option A :=
  match a with
  | Some v => Some v
  | None => b
  end.

(** [entry.removed?.reason]. *)
Definition optional_reason (e : option moderation_edit_info) : option string :=
  match e with
  | Some info => edit_reason info
  | None => None
  end.

(** ** The component *)

Section Ban.

(** [wheatley.is_authorized_mod(user)] (wheatley.ts is not under src/): the
    delegated authorization check, a synchronous predicate on the target. *)
Variable is_authorized_mod : User -> bool.

(** [parse_duration] (moderation-common.ts is not under src/): the parser of
    a duration string that is present; [None] is JavaScript's [null], the
    answer for a malformed string. *)
Variable parse_duration : string -> option number.

(** Modelled from the spec: [parse_nullable_duration] (moderation-common.ts
    is not under src/).  Given null or absent input it returns the default,
    no expiry; a string goes through the duration grammar and a malformed one
    yields [null]. *)
Definition parse_nullable_duration (duration_string : option string) : option number :=
  match duration_string with
  | None => Some Infinity
  | Some s => parse_duration s
  end.

(** [get type()]. *)
Definition this_type : moderation_type := "ban".

(** [apply_moderation(entry)]. *)
Definition apply_moderation (entry : moderation_entry) : M unit :=
  M_info ("Banning " ++ user_name entry) ;;
  member <- members_fetch (user entry) ;;
  member_ban member (reason entry).

(** [remove_moderation(entry)]. *)
Definition remove_moderation (entry : WithId) : M unit :=
  M_info ("Unbanning " ++ user_name (doc entry)) ;;
  members_unban (user (doc entry))
    (nullish (optional_reason (removed (doc entry)))
             (optional_reason (expunged (doc entry)))).

(** [is_moderation_applied(moderation)].  The assertion stands before the
    [try]; whatever the fetch throws is answered by [false]. *)
Definition is_moderation_applied (moderation : basic_moderation_with_user) : M bool :=
  strict_assert (String.eqb (basic_type moderation) this_type) ;;
  try_catch
    (bans_fetch (basic_user moderation) ;; ret true)
    (fun _ => ret false).

(** The store's insertion: the record receives its case number and its
    store identifier. *)
Definition insert_moderation (moderation : moderation_entry) : M WithId :=
  external (insert_call moderation)
    (fun w =>
       let stored :=
         {| _id := next_id w;
            doc := {| case_number := next_case w;
                      user := user moderation;
                      user_name := user_name moderation;
                      moderator := moderator moderation;
                      moderator_name := moderator_name moderation;
                      type := type moderation;
                      reason := reason moderation;
                      issued_at := issued_at moderation;
                      duration := duration moderation;
                      active := active moderation;
                      removed := removed moderation;
                      expunged := expunged moderation;
                      link := link moderation |} |} in
       (Ok stored,
        set_counters (next_case w + 1) (next_id w + 1)
          (set_moderations (moderations w ++ [stored]) w))).

(** The sleep list's insertion of a pending expiry. *)
Definition sleep_list_insert (fire_at : Z) (key : ObjectId) : M unit :=
  internal (sleep_list_insert_call fire_at key)
    (fun w => set_sleep_list (sleep_list w ++ [(fire_at, key)]) w).

(** Modelled from the spec: [ModerationComponent.register_new_moderation]
    (moderation-common.ts is not under src/).  After the notification the
    engine applies the enforcement and aborts when it fails, creates the
    record, which assigns the case number, and schedules the expiry when the
    duration is finite.  The source mutates [moderation.case_number] in
    place; here the entry is returned with its case number. *)
Definition register_new_moderation (moderation : moderation_entry) : M moderation_entry :=
  apply_moderation moderation ;;
  stored <- insert_moderation moderation ;;
  match duration moderation with
  | Some d => sleep_list_insert (issued_at moderation + d) (_id stored)
  | None => ret tt
  end ;;
  ret (doc stored).

(** The [try] block of [ban_handler]. *)
Definition ban_block (command : TextBasedCommand) (target : User)
    (duration_string : option string) (why : option string) : M completion :=
  if is_authorized_mod target then
    ret (Return (reply_with_error command "Cannot apply moderation to user"))
  else
    let base_moderation := {| basic_type := "ban"; basic_user := User_id target |} in
    applied <- is_moderation_applied base_moderation ;;
    if (applied : bool) then
      ret (Return (reply_with_error command "User is already banned"))
    else
      let duration_ms := parse_nullable_duration duration_string in
      match duration_ms with
      | None => ret (Return (reply_with_error command "Invalid duration"))
      | Some duration_ms =>
          member <- get_member command ;;
          issued <- Date_now ;;
          let moderation :=
            {| case_number := -1;
               user := User_id target;
               user_name := User_displayName target;
               moderator := User_id (command_user command);
               moderator_name := GuildMember_displayName member;
               type := "ban";
               reason := why;
               issued_at := issued;
               duration := match duration_ms with
                           | Infinity => None
                           | Finite ms => Some ms
                           end;
               active := true;
               removed := None;
               expunged := None;
               link := command_url command |} in
          notify_user command target "banned" moderation ;;
          moderation <- register_new_moderation moderation ;;
          reply_with_success_action command target "banned"
            (is_null duration_string) (is_null why)
            (Some (case_number moderation)) ;;
          ret Normal
      end.

(** [ban_handler(command, user, duration_string, reason)]. *)
Definition ban_handler (command : TextBasedCommand) (target : User)
    (duration_string : option string) (why : option string) : M unit :=
  settle
    (try_catch
       (ban_block command target duration_string why)
       (fun e =>
          reply_with_error command "Error banning" ;;
          critical_error e ;;
          ret Normal)).

(** The [try] block of [unban_handler].  The arguments of
    [findOneAndUpdate] are evaluated first, so the member is awaited and the
    clock read before the update is sent. *)
Definition unban_block (command : TextBasedCommand) (target : User)
    (why : string) : M completion :=
  member <- get_member command ;;
  stamp <- Date_now ;;
  res <- findOneAndUpdate
           {| filter_user := User_id target; filter_type := "ban";
              filter_active := true |}
           {| set_active := false;
              set_removed :=
                Some {| edit_moderator := User_id (command_user command);
                        edit_moderator_name := GuildMember_displayName member;
                        edit_reason := Some why;
                        edit_timestamp := stamp |} |} ;;
  match res with
  | None =>
      reply_with_error command "User is not banned" ;;
      ret Normal
  | Some res =>
      applied <- is_moderation_applied (as_basic (doc res)) ;;
      if negb applied then
        reply_with_error command "User is not banned" ;;
        ret Normal
      else
        remove_moderation res ;;
        sleep_list_remove (_id res) ;;
        reply_with_success_action command target "unbanned" false false None ;;
        about <- users_fetch (user (doc res)) ;;
        staff_action_log_send
          (case_summary_titled res about
             ("Case " ++ show_Z (case_number (doc res)) ++ ": Unbanned")) ;;
        ret Normal
  end.

(** [unban_handler(command, user, reason)]. *)
Definition unban_handler (command : TextBasedCommand) (target : User)
    (why : string) : M unit :=
  settle
    (try_catch
       (unban_block command target why)
       (fun e =>
          reply_with_error command "Error unbanning" ;;
          critical_error e ;;
          ret Normal)).

End Ban.

(** ** Observing one invocation *)

(** The handlers only ever append to the trace.  An invocation is observed
    from a world whose trace is empty, so that the trace of the final world
    lists the calls of this invocation and nothing else. *)
Definition fresh_trace (w : World) : World :=
  {| moderations := moderations w; bans := bans w; members := members w;
     users := users w; sleep_list := sleep_list w; now := now w;
     next_case := next_case w; next_id := next_id w; faults := faults w;
     trace := [] |}.

Definition observe {A} (m : M A) (w : World) : result A * World :=
  m (fresh_trace w).

Definition is_reply (c : call) : bool :=
  match c with
  | reply_with_error_call _ => true
  | reply_with_success_action_call _ _ _ _ _ => true
  | _ => false
  end.

Definition is_success_reply (c : call) : bool :=
  match c with
  | reply_with_success_action_call _ _ _ _ _ => true
  | _ => false
  end.

Definition is_removal (c : call) : bool :=
  match c with
  | members_unban_call _ _ => true
  | _ => false
  end.

Definition is_store_update (c : call) : bool :=
  match c with
  | findOneAndUpdate_call _ _ => true
  | _ => false
  end.

Definition is_sink (c : call) : bool :=
  match c with
  | critical_error_call _ => true
  | _ => false
  end.

Definition is_done (o : outcome) : bool :=
  match o with
  | Done => true
  | Raised _ => false
  end.

(** The calls of a trace, whatever their outcome. *)
Definition attempted (tr : list (call * outcome)) : list call := map fst tr.

(** The calls of a trace that completed. *)
Definition delivered (tr : list (call * outcome)) : list call :=
  map fst (filter (fun entry => is_done (snd entry)) tr).

(** The replies that reached the issuing command. *)
Definition replies (tr : list (call * outcome)) : list call :=
  filter is_reply (delivered tr).

(** The first [n] outside calls are not cut short by the environment. *)
Definition quiet (n : nat) (w : World) : bool :=
  forallb (fun f : option exn => is_null f) (firstn n (faults w)).

(** The query [unban_handler] sends: an active ban record of the target. *)
Definition active_ban_of (target : User) : moderation_filter :=
  {| filter_user := User_id target; filter_type := "ban"; filter_active := true |}.

(** The update [unban_handler] sends. *)
Definition revocation (command : TextBasedCommand) (why : string) (stamp : Z)
    : moderation_update :=
  {| set_active := false;
     set_removed :=
       Some {| edit_moderator := User_id (command_user command);
               edit_moderator_name :=
                 GuildMember_displayName (command_member command);
               edit_reason := Some why;
               edit_timestamp := stamp |} |}.

(** The store holds an active ban record of the target. *)
Definition has_active_ban (target : User) (w : World) : bool :=
  existsb (matches (active_ban_of target)) (moderations w).

(** What is asked of the backend about the target of a ban. *)
Definition ban_of (target : User) : basic_moderation_with_user :=
  {| basic_type := "ban"; basic_user := User_id target |}.

(** What a [catch] clause of a handler leaves in the trace for a caught
    exception [e]: the generic reply and, when that reply went through, the
    hand-over of [e] to the critical-error sink. *)
Definition generic_catch (generic : string) (e : exn) (o : outcome)
    : list (call * outcome) :=
  (reply_with_error_call generic, o)
  :: match o with
     | Done => [(critical_error_call e, Done)]
     | Raised _ => []
     end.

(** How the handler's own promise settles after its [catch] clause ran. *)
Definition settled_as (o : outcome) : result unit :=
  match o with
  | Done => Ok tt
  | Raised e => Throw e
  end.

(** Every raised call of the trace that is not [exempt] is followed by the
    generic catch and nothing else. *)
Fixpoint caught_by (generic : string) (exempt : call -> bool) (r : result unit)
    (tr : list (call * outcome)) : Prop :=
  match tr with
  | [] => True
  | (c, Done) :: rest => caught_by generic exempt r rest
  | (c, Raised e) :: rest =>
      if exempt c then caught_by generic exempt r rest
      else exists o, rest = generic_catch generic e o /\ r = settled_as o
  end.

(** Calls whose exception never reaches the [catch] clause of
    [ban_handler]: the ban fetch, answered inside [is_moderation_applied],
    and the error replies, which are returned without [await] or are sent by
    the [catch] clause itself. *)
Definition outside_ban_catch (c : call) : bool :=
  match c with
  | bans_fetch_call _ => true
  | reply_with_error_call _ => true
  | _ => false
  end.

(** Calls whose exception never reaches the [catch] clause of
    [unban_handler]: the ban fetch and the generic reply of the clause. *)
Definition outside_unban_catch (c : call) : bool :=
  match c with
  | bans_fetch_call _ => true
  | reply_with_error_call message => String.eqb message "Error unbanning"
  | _ => false
  end.

(** No reply of the trace was cut short. *)
Definition replies_went_through (tr : list (call * outcome)) : bool :=
  forallb (fun entry => negb (is_reply (fst entry)) || is_done (snd entry)) tr.

(** ** The two commands of the component *)

(** What the command layer passes to the handler it bound with
    [set_handler]: [ban] takes an optional duration and an optional reason,
    [unban] a required reason. *)
Inductive invocation :=
| ban_invocation (command : TextBasedCommand) (target : User)
    (duration_string : option string) (why : option string)
| unban_invocation (command : TextBasedCommand) (target : User) (why : string).

Definition run_handler (is_authorized_mod : User -> bool)
    (parse_duration : string -> option number) (i : invocation) : M unit :=
  match i with
  | ban_invocation command target duration_string why =>
      ban_handler is_authorized_mod parse_duration command target
        duration_string why
  | unban_invocation command target why =>
      unban_handler command target why
  end.

(** The text of the reply in the handler's [catch] clause. *)
Definition generic_reply (i : invocation) : string :=
  match i with
  | ban_invocation _ _ _ _ => "Error banning"
  | unban_invocation _ _ _ => "Error unbanning"
  end.

Definition outside_catch (i : invocation) : call -> bool :=
  match i with
  | ban_invocation _ _ _ _ => outside_ban_catch
  | unban_invocation _ _ _ => outside_unban_catch
  end.

Definition target_of (i : invocation) : User :=
  match i with
  | ban_invocation _ target _ _ => target
  | unban_invocation _ target _ => target
  end.

(** ** Counting and screening *)

(** How many active ban records of the target the store holds. *)
Definition count_active (target : User) (w : World) : nat :=
  length (filter (matches (active_ban_of target)) (moderations w)).

(** The environment never throws an [AssertionError] of its own. *)
Definition never_asserts (w : World) : bool :=
  forallb (fun f : option exn =>
             match f with
             | Some AssertionError => false
             | _ => true
             end) (faults w).

(** A ban call in a trace. *)
Definition is_ban (c : call) : bool :=
  match c with
  | member_ban_call _ _ => true
  | _ => false
  end.

(** ** Sample data for concrete runs *)

Module Sample.

Definition parse_duration (s : string) : option number :=
  if String.eqb s "1h" then Some (Finite 3600000)
  else if String.eqb s "30m" then Some (Finite 1800000)
  else if String.eqb s "perm" then Some Infinity
  else None.

Definition moderator_one : User := {| User_id := "1"; User_displayName := "root" |}.
Definition alice : User := {| User_id := "100"; User_displayName := "alice" |}.
Definition bob : User := {| User_id := "200"; User_displayName := "bob" |}.

Definition is_authorized_mod (u : User) : bool := String.eqb (User_id u) "1".

Definition command : TextBasedCommand :=
  {| command_user := moderator_one;
     command_member := {| GuildMember_id := "1"; GuildMember_displayName := "Root" |};
     command_url := "https://discord.com/channels/1/2/3" |}.

(** Nobody is banned, nothing is recorded. *)
Definition empty : World :=
  {| moderations := [];
     bans := [];
     members := [{| GuildMember_id := "100"; GuildMember_displayName := "alice" |};
                 {| GuildMember_id := "200"; GuildMember_displayName := "bob" |}];
     users := [moderator_one; alice; bob];
     sleep_list := [];
     now := 1000;
     next_case := 1;
     next_id := 1;
     faults := [];
     trace := [] |}.

Definition case_of (target : User) (key : ObjectId) (span : option Z) : WithId :=
  {| _id := key;
     doc := {| case_number := key;
               user := User_id target;
               user_name := User_displayName target;
               moderator := "1";
               moderator_name := "Root";
               type := "ban";
               reason := Some "spam";
               issued_at := 500;
               duration := span;
               active := true;
               removed := None;
               expunged := None;
               link := "https://discord.com/channels/1/2/3" |} |}.

(** alice is banned for an hour, on record as case 1 with a pending expiry. *)
Definition alice_banned : World :=
  {| moderations := [case_of alice 1 (Some 3600000)];
     bans := ["100"];
     members := [{| GuildMember_id := "200"; GuildMember_displayName := "bob" |}];
     users := [moderator_one; alice; bob];
     sleep_list := [(3600500, 1)];
     now := 1000;
     next_case := 2;
     next_id := 2;
     faults := [];
     trace := [] |}.

(** bob has an active ban record, but the guild has no ban for him. *)
Definition bob_on_record_only : World :=
  {| moderations := [case_of bob 1 None];
     bans := [];
     members := [{| GuildMember_id := "100"; GuildMember_displayName := "alice" |}];
     users := [moderator_one; alice; bob];
     sleep_list := [];
     now := 1000;
     next_case := 2;
     next_id := 2;
     faults := [];
     trace := [] |}.

(** A world with a failure schedule. *)
Definition with_faults (fs : list (option exn)) (w : World) : World :=
  set_faults fs w.

(** The [ban] command as issued by the sample moderator. *)
Definition ban (target : User) (duration_string why : option string) : M unit :=
  ban_handler is_authorized_mod parse_duration command target duration_string why.

End Sample.

(** ** Proof automation: symbolic execution of a handler *)

Arguments quiet : simpl never.
Arguments show_Z : simpl never.

Ltac unfold_calls :=
  unfold observe, settle, try_catch, bind, ret, throw, external, internal,
    strict_assert, Date_now in *.

Ltac unfold_ban :=
  unfold ban_handler, ban_block, register_new_moderation, apply_moderation,
    insert_moderation, sleep_list_insert, is_moderation_applied, bans_fetch,
    members_fetch, member_ban, notify_user, get_member, M_info,
    reply_with_error, reply_with_success_action, critical_error,
    parse_nullable_duration, ban_of, this_type in *.

Ltac unfold_unban :=
  unfold unban_handler, unban_block, remove_moderation, is_moderation_applied,
    bans_fetch, members_unban, users_fetch, findOneAndUpdate,
    sleep_list_remove, staff_action_log_send, get_member, M_info,
    reply_with_error, reply_with_success_action, critical_error, ban_of,
    this_type in *.

(** One step of evaluation of the goal.  The simplified goal is computed by
    [cbn]; that it is the same goal is left to the virtual machine, which
    shares the worlds that the nested calls build. *)
Ltac simp :=
  match goal with
  | |- ?G =>
      let G' := eval cbn in G in
      let H := fresh in
      cut G'; [ intro H; vm_cast_no_check H | ]
  end.

(** Case analysis on the innermost scrutinee on which the goal is stuck. *)
Ltac innermost x :=
  lazymatch x with
  | context [match ?y with _ => _ end] => innermost y
  | _ => destruct x eqn:?
  end.

Ltac branch :=
  match goal with
  | |- context [match ?x with _ => _ end] => innermost x
  end.

(** Runs the handler of the goal along every path. *)
Ltac execute := simp; repeat (branch; simp).

Ltac split_pairs :=
  repeat match goal with
         | H : (_, _) = (_, _) |- _ => inversion H; clear H; subst
         end.

Ltac conjuncts := repeat match goal with |- _ /\ _ => split end.

Ltac in_cases :=
  repeat match goal with
         | H : _ \/ _ |- _ => destruct H
         | H : False |- _ => contradiction
         | H : (_, _) = (_, _) |- _ => inversion H; clear H; subst
         | H : @eq call _ _ |- _ => inversion H; clear H; subst
         end.

(** ** The store's conditional update *)

Lemma find_one_and_update_none (f : moderation_filter) (u : moderation_update)
    (docs : list WithId) :
  existsb (matches f) docs = false ->
  find_one_and_update f u docs = (None, docs).
Proof.
  induction docs as [|d rest IH]; cbn; intros Hnone.
  - reflexivity.
  - apply orb_false_iff in Hnone. destruct Hnone as [Hd Hrest].
    rewrite Hd, (IH Hrest). reflexivity.
Qed.

Lemma find_one_and_update_none_inv (f : moderation_filter) (u : moderation_update)
    (docs docs' : list WithId) :
  find_one_and_update f u docs = (None, docs') ->
  existsb (matches f) docs = false /\ docs' = docs.
Proof.
  revert docs'. induction docs as [|d rest IH]; cbn; intros docs' Hrun.
  - inversion Hrun. auto.
  - destruct (matches f d) eqn:Hd; [discriminate|].
    destruct (find_one_and_update f u rest) as [found rest'] eqn:Hrest.
    inversion Hrun; subst.
    destruct (IH _ eq_refl) as [Hnone ->]. auto.
Qed.

Lemma find_one_and_update_some (f : moderation_filter) (u : moderation_update)
    (docs docs' : list WithId) (res : WithId) :
  find_one_and_update f u docs = (Some res, docs') ->
  exists pre d post,
    docs = pre ++ d :: post
    /\ existsb (matches f) pre = false
    /\ matches f d = true
    /\ res = apply_update u d
    /\ docs' = pre ++ res :: post.
Proof.
  revert docs'. induction docs as [|d rest IH]; cbn; intros docs' Hrun.
  - discriminate.
  - destruct (matches f d) eqn:Hd.
    + inversion Hrun; subst. exists [], d, rest. cbn. auto.
    + destruct (find_one_and_update f u rest) as [found rest'] eqn:Hrest.
      inversion Hrun; subst.
      destruct (IH _ eq_refl) as (pre & d0 & post & -> & Hpre & Hd0 & -> & ->).
      exists (d :: pre), d0, post. cbn. rewrite Hd, Hpre. auto.
Qed.

Lemma matches_active_ban (target : User) (d : WithId) :
  matches (active_ban_of target) d = true ->
  user (doc d) = User_id target /\ type (doc d) = "ban" /\ active (doc d) = true.
Proof.
  unfold matches, active_ban_of. cbn. intros H.
  apply andb_true_iff in H. destruct H as [H Hactive].
  apply andb_true_iff in H. destruct H as [Huser Htype].
  apply String.eqb_eq in Huser, Htype. apply Bool.eqb_prop in Hactive. auto.
Qed.

(** ** The failure schedule *)

Lemma tl_skipn {A} (i : nat) (l : list A) :
  tl (skipn i l) = skipn (S i) l.
Proof.
  revert l. induction i as [|i IH]; intros [|x l]; cbn; auto.
Qed.

Lemma iter_tl_skipn {A} (i : nat) (l : list A) :
  Nat.iter i (@tl A) l = skipn i l.
Proof.
  induction i as [|i IH].
  - reflexivity.
  - change (Nat.iter (S i) (@tl A) l) with (tl (Nat.iter i (@tl A) l)).
    rewrite IH. apply tl_skipn.
Qed.

Lemma quiet_call (n : nat) (w : World) :
  quiet n w = true ->
  forall i, (i < n)%nat -> hd None (Nat.iter i (@tl _) (faults w)) = None.
Proof.
  unfold quiet. intros Hq i Hi. rewrite iter_tl_skipn.
  revert n Hq Hi. generalize (faults w) as fs.
  induction i as [|i IH]; intros fs n Hq Hi.
  - destruct n as [|n]; [lia|]. destruct fs as [|[e|] fs]; cbn in *; auto.
    discriminate.
  - destruct n as [|n]; [lia|]. destruct fs as [|f fs]; cbn in *; auto.
    apply andb_true_iff in Hq. destruct Hq as [_ Hq].
    apply (IH fs n Hq). lia.
Qed.

(** A call found cut short although the schedule is quiet there. *)
Ltac use_quiet H :=
  let Hq := fresh "Hq" in
  pose proof (@quiet_call _ _ H) as Hq;
  repeat match goal with
         | Hf : hd None ?fs = Some _ |- _ =>
             let i :=
               match fs with
               | faults _ => constr:(0%nat)
               | tl (faults _) => constr:(1%nat)
               | tl (tl (faults _)) => constr:(2%nat)
               | tl (tl (tl (faults _))) => constr:(3%nat)
               end in
             let Hi := fresh "Hi" in
             assert (Hi : hd None fs = None) by (apply (Hq i); lia);
             congruence
         end.

(** What a run of the store's update says about the collection. *)
Ltac store_facts :=
  repeat match goal with
         | H : find_one_and_update _ _ _ = (None, _) |- _ =>
             apply find_one_and_update_none_inv in H; destruct H as [? ?]; subst
         | H : find_one_and_update _ _ _ = (Some _, _) |- _ =>
             let pre := fresh "pre" in
             let d := fresh "d" in
             let post := fresh "post" in
             let Hdocs := fresh "Hdocs" in
             let Hpre := fresh "Hpre" in
             let Hd := fresh "Hd" in
             apply find_one_and_update_some in H;
             destruct H as (pre & d & post & Hdocs & Hpre & Hd & ? & ?); subst;
             pose proof (@matches_active_ban _ _ Hd) as (? & ? & ?)
         end.

Ltac record_facts :=
  cbn in *;
  repeat match goal with
         | H : user (doc _) = User_id _ |- _ => rewrite H in *
         | H : type (doc _) = "ban" |- _ => rewrite H in *
         end;
  cbn in *.

Ltac no_record_contradiction :=
  match goal with
  | Hn : existsb _ (moderations ?w) = false,
    Hdocs : moderations ?w = _ ++ ?d :: _,
    Hd : matches _ ?d = true |- _ =>
      exfalso; rewrite Hdocs, existsb_app in Hn; cbn in Hn;
      rewrite Hd in Hn; rewrite orb_true_r in Hn; discriminate Hn
  end.

(** ** The catch clauses *)

Lemma caught_by_elim (generic : string) (exempt : call -> bool)
    (r : result unit) (tr : list (call * outcome)) :
  exempt (reply_with_error_call generic) = true ->
  caught_by generic exempt r tr ->
  forall c e,
    In (c, Raised e) tr ->
    exempt c = false ->
    exists pre o,
      tr = pre ++ (c, Raised e) :: generic_catch generic e o
      /\ r = settled_as o.
Proof.
  intros Hgeneric. induction tr as [|[c0 o0] rest IH]; cbn; intros Hcaught c e Hin Hc.
  - contradiction.
  - destruct Hin as [Hhead|Hin].
    + inversion Hhead; subst. rewrite Hc in Hcaught.
      destruct Hcaught as (o & -> & ->). exists [], o. auto.
    + destruct o0 as [|e0].
      * destruct (IH Hcaught c e Hin Hc) as (pre & o & -> & ->).
        exists ((c0, Done) :: pre), o. auto.
      * destruct (exempt c0) eqn:Hc0.
        -- destruct (IH Hcaught c e Hin Hc) as (pre & o & -> & ->).
           exists ((c0, Raised e0) :: pre), o. auto.
        -- destruct Hcaught as (o & -> & ->). exfalso.
           unfold generic_catch in Hin. cbn in Hin.
           destruct Hin as [Hin|Hin].
           ++ inversion Hin; subst. congruence.
           ++ destruct o; cbn in Hin; intuition discriminate.
Qed.

(** A trace as a [catch] clause leaves it. *)
Ltac caught :=
  cbn; auto;
  first [ exists Done; split; reflexivity
        | eexists (Raised _); split; reflexivity ].

Section Properties.

Variable is_authorized_mod : User -> bool.
Variable parse_duration : string -> option number.

Lemma ban_handler_caught
    (command : TextBasedCommand) (target : User)
    (duration_string why : option string) (w w' : World) (r : result unit) :
  observe (ban_handler is_authorized_mod parse_duration command target
             duration_string why) w = (r, w') ->
  caught_by "Error banning" outside_ban_catch r (trace w').
Proof.
  unfold_ban. unfold_calls. execute.
  all: intros Hrun; split_pairs; caught.
Qed.

Lemma unban_handler_caught
    (command : TextBasedCommand) (target : User) (why : string)
    (w w' : World) (r : result unit) :
  observe (unban_handler command target why) w = (r, w') ->
  caught_by "Error unbanning" outside_unban_catch r (trace w').
Proof.
  unfold_unban. unfold_calls. execute.
  all: intros Hrun; split_pairs; caught.
Qed.

Lemma ban_handler_replies
    (command : TextBasedCommand) (target : User)
    (duration_string why : option string) (w w' : World) (r : result unit) :
  observe (ban_handler is_authorized_mod parse_duration command target
             duration_string why) w = (r, w') ->
  replies_went_through (trace w') = true ->
  r = Ok tt /\ length (replies (trace w')) = 1%nat.
Proof.
  unfold_ban. unfold_calls. execute.
  all: intros Hrun Hreplies; split_pairs; cbn in *; try discriminate; auto.
Qed.

Lemma unban_handler_replies
    (command : TextBasedCommand) (target : User) (why : string)
    (w w' : World) (r : result unit) :
  observe (unban_handler command target why) w = (r, w') ->
  replies_went_through (trace w') = true ->
  r = Ok tt
  /\ (length (replies (trace w')) = 1%nat
      \/ replies (trace w') =
           [reply_with_success_action_call target "unbanned" false false None;
            reply_with_error_call "Error unbanning"]).
Proof.
  unfold_unban. unfold_calls. execute.
  all: intros Hrun Hreplies; split_pairs; cbn in *; try discriminate; auto.
Qed.

(** C9.  [is_moderation_applied] on a ban always resolves, and it resolves
    to [false] whenever the backend's ban fetch throws, whatever the
    exception is: no failure of the fetch reaches the caller. *)
Theorem is_moderation_applied_swallows_fetch_failure
    (moderation : basic_moderation_with_user) (w : World) :
  basic_type moderation = this_type ->
  exists b w',
    is_moderation_applied moderation w = (Ok b, w')
    /\ (forall e, fst (bans_fetch (basic_user moderation) w) = Throw e -> b = false).
Proof.
  intros Htype.
  unfold is_moderation_applied, bans_fetch. rewrite Htype.
  unfold_calls. cbn.
  repeat (branch; cbn); do 2 eexists; (split; [reflexivity|]); intros; congruence.
Qed.

(** A ban that delivered its success reply was a ban of a target that
    passes the authorization check: so does every later ban of the same
    target. *)
Lemma ban_handler_success_passed_authorization
    (command : TextBasedCommand) (target : User)
    (duration_string why : option string) (w w' : World) (r : result unit) :
  observe (ban_handler is_authorized_mod parse_duration command target
             duration_string why) w = (r, w') ->
  existsb is_success_reply (replies (trace w')) = true ->
  is_authorized_mod target = false.
Proof.
  destruct (is_authorized_mod target) eqn:Hmod; [|reflexivity].
  unfold_ban. rewrite Hmod. unfold_calls. execute.
  all: intros Hrun Hsuccess; split_pairs; discriminate.
Qed.

(** C1.  When the backend reports the target as banned, a ban of a target
    that passes the authorization check makes two calls, the ban fetch and
    the error reply "User is already banned": nothing is registered, nobody
    is notified, nothing is scheduled, and the store, the sleep list and the
    ban list are as before. *)
Theorem ban_handler_already_banned
    (command : TextBasedCommand) (target : User)
    (duration_string why : option string) (w : World) :
  is_authorized_mod target = false ->
  fst (is_moderation_applied (ban_of target) w) = Ok true ->
  let (r, w') :=
    observe (ban_handler is_authorized_mod parse_duration command target
               duration_string why) w in
  (exists o,
      trace w' = [(bans_fetch_call (User_id target), Done);
                  (reply_with_error_call "User is already banned", o)]
      /\ r = settled_as o)
  /\ moderations w' = moderations w
  /\ sleep_list w' = sleep_list w
  /\ bans w' = bans w.
Proof.
  intros Hmod.
  unfold_ban. rewrite Hmod. unfold_calls. execute.
  all: intros Happlied; try discriminate.
  all: split; [eexists; split; reflexivity|auto].
Qed.

(** C5, as the code has it.  The duplicate check comes before the duration
    is parsed: a ban with a malformed duration of a target that passes the
    authorization check is answered by "User is already banned" when the
    backend reports the ban, and by "Invalid duration" only when it does
    not; no record is created either way. *)
Theorem ban_handler_duplicate_check_precedes_duration
    (command : TextBasedCommand) (target : User)
    (duration_string why : option string) (w : World) :
  is_authorized_mod target = false ->
  parse_nullable_duration parse_duration duration_string = None ->
  let (r, w') :=
    observe (ban_handler is_authorized_mod parse_duration command target
               duration_string why) w in
  moderations w' = moderations w
  /\ match fst (is_moderation_applied (ban_of target) w) with
     | Ok true =>
         attempted (trace w') =
           [bans_fetch_call (User_id target);
            reply_with_error_call "User is already banned"]
     | Ok false =>
         attempted (trace w') =
           [bans_fetch_call (User_id target);
            reply_with_error_call "Invalid duration"]
     | Throw _ => False
     end.
Proof.
  intros Hmod.
  unfold_ban. rewrite Hmod. unfold_calls. execute.
  all: intros Hparse; try discriminate.
  all: split; reflexivity.
Qed.

(** C6, as the code has it.  For a ban that passes the authorization and
    duplicate checks: with an absent duration string the parse yields the
    no-expiry default, "Invalid duration" is never replied, the entry handed
    to the store and every record the store gains have [duration = null],
    and once the success reply is delivered the store has gained exactly one
    such record and no expiry was scheduled; with a malformed duration
    string the only reply is "Invalid duration" and the store is as
    before. *)
Theorem ban_handler_duration_default_and_rejection
    (command : TextBasedCommand) (target : User) (malformed : string)
    (why : option string) (w : World) :
  is_authorized_mod target = false ->
  fst (is_moderation_applied (ban_of target) w) = Ok false ->
  parse_duration malformed = None ->
  (parse_nullable_duration parse_duration None = Some Infinity
   /\ let (r, w') :=
        observe (ban_handler is_authorized_mod parse_duration command target
                   None why) w in
      ~ In (reply_with_error_call "Invalid duration") (attempted (trace w'))
      /\ (forall m o, In (insert_call m, o) (trace w') -> duration m = None)
      /\ (forall d, In d (moderations w') ->
                    In d (moderations w) \/ duration (doc d) = None)
      /\ (existsb is_success_reply (replies (trace w')) = true ->
          exists d, moderations w' = moderations w ++ [d]
                    /\ duration (doc d) = None
                    /\ sleep_list w' = sleep_list w))
  /\ (let (r, w') :=
        observe (ban_handler is_authorized_mod parse_duration command target
                   (Some malformed) why) w in
      attempted (trace w') =
        [bans_fetch_call (User_id target);
         reply_with_error_call "Invalid duration"]
      /\ moderations w' = moderations w).
Proof.
  intros Hmod Happlied Hparse. split; [split; [reflexivity|]|]; revert Happlied.
  - unfold_ban. rewrite Hmod. unfold_calls. execute.
    all: intros Happlied; try discriminate.
    all: conjuncts.
    all: try (intros m o Hin; cbn in Hin; in_cases; reflexivity).
    all: try (intros Hin; cbn in Hin; in_cases; fail).
    all: try (intros d Hin; apply in_app_or in Hin; cbn in Hin; in_cases; subst;
              ((left; assumption) || (right; reflexivity))).
    all: try (intros; auto; discriminate).
    all: try (intros _; eexists; conjuncts; reflexivity).
  - unfold_ban. rewrite Hmod, Hparse. unfold_calls. execute.
    all: intros Happlied; try discriminate.
    all: split; reflexivity.
Qed.

(** C3.  Without an active ban record of the target, [unban_handler] never
    calls the backend's unban, sends no success reply and leaves the store,
    the ban list and the sleep list as they were; when the member lookup
    and the store query go through, the call after them is the error reply
    "User is not banned", and the handler resolves once it is delivered. *)
Theorem unban_handler_without_active_record
    (command : TextBasedCommand) (target : User) (why : string) (w : World) :
  has_active_ban target w = false ->
  let (r, w') := observe (unban_handler command target why) w in
  existsb is_removal (attempted (trace w')) = false
  /\ existsb is_success_reply (attempted (trace w')) = false
  /\ moderations w' = moderations w
  /\ bans w' = bans w
  /\ sleep_list w' = sleep_list w
  /\ (quiet 2 w = true ->
      exists o rest,
        trace w' =
          (get_member_call, Done)
          :: (findOneAndUpdate_call (active_ban_of target)
                (revocation command why (now w)), Done)
          :: (reply_with_error_call "User is not banned", o)
          :: rest
        /\ (o = Done -> rest = [] /\ r = Ok tt)).
Proof.
  unfold has_active_ban, active_ban_of, revocation. intros Hnone.
  unfold_unban. unfold_calls. execute.
  all: repeat match goal with
              | H : find_one_and_update _ _ _ = _ |- _ =>
                  erewrite find_one_and_update_none in H by exact Hnone;
                  inversion H; clear H; subst
              end.
  all: conjuncts; auto.
  all: intros Hq; try (use_quiet Hq; fail).
  all: do 2 eexists; (split; [reflexivity|]); intros; try discriminate; auto.
Qed.

(** C4.  When the conditional update flips an active ban record of the
    target but the backend's ban fetch fails (the guild has no ban for the
    target, or the fetch is cut short), the record stays flipped, with
    [active = false] and the [removed] sub-record of this revocation; the
    backend's unban is not called, the sleep list is not touched, and the
    call after the fetch is the error reply "User is not banned". *)
Theorem unban_handler_record_without_backend_ban
    (command : TextBasedCommand) (target : User) (why : string) (w : World) :
  quiet 2 w = true ->
  has_active_ban target w = true ->
  is_banned (User_id target) w = false
    \/ (exists e, hd None (tl (tl (faults w))) = Some e) ->
  let (r, w') := observe (unban_handler command target why) w in
  (exists pre d post,
      moderations w = pre ++ d :: post
      /\ existsb (matches (active_ban_of target)) pre = false
      /\ matches (active_ban_of target) d = true
      /\ moderations w' =
           pre ++ apply_update (revocation command why (now w)) d :: post
      /\ active (doc (apply_update (revocation command why (now w)) d)) = false
      /\ removed (doc (apply_update (revocation command why (now w)) d)) =
           Some {| edit_moderator := User_id (command_user command);
                   edit_moderator_name :=
                     GuildMember_displayName (command_member command);
                   edit_reason := Some why;
                   edit_timestamp := now w |})
  /\ existsb is_removal (attempted (trace w')) = false
  /\ bans w' = bans w
  /\ sleep_list w' = sleep_list w
  /\ (exists e o rest,
        trace w' =
          (get_member_call, Done)
          :: (findOneAndUpdate_call (active_ban_of target)
                (revocation command why (now w)), Done)
          :: (bans_fetch_call (User_id target), Raised e)
          :: (reply_with_error_call "User is not banned", o)
          :: rest
        /\ (o = Done -> rest = [] /\ r = Ok tt)).
Proof.
  unfold has_active_ban, is_banned, active_ban_of, revocation.
  intros Hq Hsome Hfetch.
  unfold_unban. unfold_calls. execute.
  all: try (use_quiet Hq; fail).
  all: store_facts; record_facts; try discriminate; try congruence.
  all: try (destruct Hfetch as [Hfetch|[? Hfetch]]; congruence).
  all: split; [do 3 eexists; conjuncts; first [eassumption | reflexivity]|].
  all: conjuncts; auto.
  all: do 3 eexists; (split; [reflexivity|]); intros; try discriminate; auto.
Qed.

(** C2.  Whenever [unban_handler] delivers its success reply, the store was
    updated by one [findOneAndUpdate] call, whose query asks for the
    target's ban record with [active = true] and whose update sets
    [active = false] and the [removed] sub-record with the caller's reason:
    the first such record of the collection is replaced by its update and
    nothing else changes there; the backend's unban was called and the
    record's pending expiry is gone from the sleep list. *)
Theorem unban_handler_success_updates_record
    (command : TextBasedCommand) (target : User) (why : string)
    (w w' : World) (r : result unit) :
  observe (unban_handler command target why) w = (r, w') ->
  existsb is_success_reply (replies (trace w')) = true ->
  exists pre d post,
    moderations w = pre ++ d :: post
    /\ existsb (matches (active_ban_of target)) pre = false
    /\ matches (active_ban_of target) d = true
    /\ moderations w' =
         pre ++ apply_update (revocation command why (now w)) d :: post
    /\ active (doc (apply_update (revocation command why (now w)) d)) = false
    /\ removed (doc (apply_update (revocation command why (now w)) d)) =
         Some {| edit_moderator := User_id (command_user command);
                 edit_moderator_name :=
                   GuildMember_displayName (command_member command);
                 edit_reason := Some why;
                 edit_timestamp := now w |}
    /\ filter is_store_update (attempted (trace w')) =
         [findOneAndUpdate_call (active_ban_of target)
            (revocation command why (now w))]
    /\ filter_active (active_ban_of target) = true
    /\ In (members_unban_call (User_id target) (Some why), Done) (trace w')
    /\ In (sleep_list_remove_call (_id d), Done) (trace w')
    /\ sleep_list w' =
         filter (fun e => negb (snd e =? _id d)) (sleep_list w).
Proof.
  unfold active_ban_of, revocation.
  unfold_unban. unfold_calls. execute.
  all: intros Hrun Hsuccess; split_pairs; cbn in *; try discriminate.
  all: store_facts; record_facts; try discriminate.
  all: do 3 eexists; conjuncts; try first [eassumption | reflexivity].
  all: cbn; auto 10.
Qed.

(** C7, as the code has it.  The two failures of a revocation, no active
    record and an active record without a ban in the guild, reach the
    caller as the same single reply, "User is not banned". *)
Theorem unban_handler_failures_share_reply
    (command : TextBasedCommand) (target : User) (why : string) (w : World) :
  quiet 4 w = true ->
  has_active_ban target w = false \/ is_banned (User_id target) w = false ->
  let (r, w') := observe (unban_handler command target why) w in
  r = Ok tt
  /\ replies (trace w') = [reply_with_error_call "User is not banned"].
Proof.
  unfold has_active_ban, is_banned, active_ban_of. intros Hq Hfail.
  unfold_unban. unfold_calls. execute.
  all: try (use_quiet Hq; fail).
  all: store_facts; record_facts; try discriminate.
  all: try (destruct Hfail; [no_record_contradiction | congruence]).
  all: try (destruct Hfail; congruence).
  all: auto.
Qed.

(** C8, as the code has it.  In either handler, an exception raised by a
    call whose failure reaches the [catch] clause is followed by the generic
    reply, "Error banning" or "Error unbanning", a fixed text; when that
    reply is delivered the same exception is handed to [critical_error] and
    the handler resolves, and when the reply itself is cut short the trace
    ends there, [critical_error] is not called and the handler rejects. *)
Theorem handlers_catch_awaited_failures
    (i : invocation) (w w' : World) (r : result unit) (c : call) (e : exn) :
  observe (run_handler is_authorized_mod parse_duration i) w = (r, w') ->
  In (c, Raised e) (trace w') ->
  outside_catch i c = false ->
  exists pre o,
    trace w' = pre ++ (c, Raised e) :: generic_catch (generic_reply i) e o
    /\ r = settled_as o.
Proof.
  intros Hrun Hin Hc. destruct i as [command target duration_string why|command target why].
  - apply (@caught_by_elim "Error banning" outside_ban_catch r (trace w') eq_refl
             (ban_handler_caught _ _ _ _ _ Hrun) c e Hin Hc).
  - apply (@caught_by_elim "Error unbanning" outside_unban_catch r (trace w') eq_refl
             (unban_handler_caught _ _ _ _ Hrun) c e Hin Hc).
Qed.

(** C10, as the code has it.  An invocation in which no reply is cut short
    resolves; [ban_handler] then has sent exactly one reply, and
    [unban_handler] has sent exactly one reply or, when a step after its
    success reply threw, that success reply followed by "Error
    unbanning". *)
Theorem handlers_reply_when_replies_go_through
    (i : invocation) (w w' : World) (r : result unit) :
  observe (run_handler is_authorized_mod parse_duration i) w = (r, w') ->
  replies_went_through (trace w') = true ->
  r = Ok tt
  /\ (length (replies (trace w')) = 1%nat
      \/ (generic_reply i = "Error unbanning"
          /\ replies (trace w') =
               [reply_with_success_action_call (target_of i) "unbanned"
                  false false None;
                reply_with_error_call "Error unbanning"])).
Proof.
  intros Hrun Hreplies. destruct i as [command target duration_string why|command target why].
  - destruct (ban_handler_replies _ _ _ _ _ Hrun Hreplies) as [-> Hone]. auto.
  - destruct (unban_handler_replies _ _ _ _ Hrun Hreplies) as [-> [Hone|Htwo]]; auto.
Qed.

End Properties.

(** ** Concrete runs *)

(** The scenario of the specification on the sample data: a first ban of
    alice for an hour succeeds as case 1, a second ban is answered by
    "User is already banned" and adds no record, and the unban that follows
    marks case 1 inactive with the reason of the unban and lifts the ban. *)
Example issue_issue_revoke :
  let first := Sample.ban Sample.alice (Some "1h") (Some "spam") in
  let second := Sample.ban Sample.alice (Some "30m") None in
  let third := unban_handler Sample.command Sample.alice "appeal" in
  let w1 := snd (observe first Sample.empty) in
  let w2 := snd (observe second w1) in
  let w3 := snd (observe third w2) in
  replies (trace w1) =
    [reply_with_success_action_call Sample.alice "banned" false false (Some 1)]
  /\ map (fun d => active (doc d)) (moderations w1) = [true]
  /\ replies (trace w2) = [reply_with_error_call "User is already banned"]
  /\ moderations w2 = moderations w1
  /\ replies (trace w3) =
       [reply_with_success_action_call Sample.alice "unbanned" false false None]
  /\ map (fun d => (case_number (doc d), active (doc d),
                    optional_reason (removed (doc d)))) (moderations w3) =
       [(1, false, Some "appeal")]
  /\ is_banned "100" w3 = false
  /\ sleep_list w3 = [].
Proof.
  vm_compute. repeat split.
Qed.

Lemma is_moderation_applied_swallows_fetch_failure_witness :
  exists b w',
    is_moderation_applied (ban_of Sample.bob) Sample.empty = (Ok b, w')
    /\ (forall e,
          fst (bans_fetch (basic_user (ban_of Sample.bob)) Sample.empty) = Throw e ->
          b = false).
Proof.
  apply (is_moderation_applied_swallows_fetch_failure (ban_of Sample.bob) Sample.empty).
  reflexivity.
Defined.

Lemma ban_handler_already_banned_witness :
  let (r, w') :=
    observe (Sample.ban Sample.alice (Some "30m") None) Sample.alice_banned in
  (exists o,
      trace w' = [(bans_fetch_call "100", Done);
                  (reply_with_error_call "User is already banned", o)]
      /\ r = settled_as o)
  /\ moderations w' = moderations Sample.alice_banned
  /\ sleep_list w' = sleep_list Sample.alice_banned
  /\ bans w' = bans Sample.alice_banned.
Proof.
  apply (ban_handler_already_banned Sample.is_authorized_mod Sample.parse_duration
           Sample.command Sample.alice (Some "30m") None Sample.alice_banned);
    reflexivity.
Defined.

(** C5 does not hold as the specification states it: alice passes the authorization check and
    is banned, the duration "soon" is malformed, and the only reply is
    "User is already banned"; "Invalid duration" is not even attempted. *)
Lemma ban_handler_malformed_duration_on_banned_target :
  Sample.is_authorized_mod Sample.alice = false
  /\ parse_nullable_duration Sample.parse_duration (Some "soon") = None
  /\ fst (is_moderation_applied (ban_of Sample.alice) Sample.alice_banned) = Ok true
  /\ (let (r, w') :=
        observe (Sample.ban Sample.alice (Some "soon") None) Sample.alice_banned in
      replies (trace w') = [reply_with_error_call "User is already banned"]
      /\ ~ In (reply_with_error_call "Invalid duration") (attempted (trace w'))).
Proof.
  repeat split. cbn. intros [H|[H|[]]]; discriminate.
Qed.

Lemma ban_handler_duplicate_check_precedes_duration_witness :
  let (r, w') :=
    observe (Sample.ban Sample.alice (Some "soon") None) Sample.alice_banned in
  moderations w' = moderations Sample.alice_banned
  /\ attempted (trace w') =
       [bans_fetch_call "100"; reply_with_error_call "User is already banned"].
Proof.
  apply (ban_handler_duplicate_check_precedes_duration Sample.is_authorized_mod
           Sample.parse_duration Sample.command Sample.alice (Some "soon") None
           Sample.alice_banned);
    reflexivity.
Defined.

(** C6 does not hold as the specification states it: the duration "2 fortnights" is malformed,
    yet the ban of alice, who is banned already, is rejected with "User is
    already banned" and not with "Invalid duration". *)
Lemma ban_handler_malformed_duration_not_reported :
  parse_nullable_duration Sample.parse_duration (Some "2 fortnights") = None
  /\ (let (r, w') :=
        observe (Sample.ban Sample.alice (Some "2 fortnights") (Some "spam"))
          Sample.alice_banned in
      r = Ok tt
      /\ replies (trace w') = [reply_with_error_call "User is already banned"]
      /\ ~ In (reply_with_error_call "Invalid duration") (attempted (trace w'))).
Proof.
  repeat split. cbn. intros [H|[H|[]]]; discriminate.
Qed.

Lemma ban_handler_duration_default_and_rejection_witness :
  (parse_nullable_duration Sample.parse_duration None = Some Infinity
   /\ let (r, w') := observe (Sample.ban Sample.alice None None) Sample.empty in
      ~ In (reply_with_error_call "Invalid duration") (attempted (trace w'))
      /\ (forall m o, In (insert_call m, o) (trace w') -> duration m = None)
      /\ (forall d, In d (moderations w') ->
                    In d (moderations Sample.empty) \/ duration (doc d) = None)
      /\ (existsb is_success_reply (replies (trace w')) = true ->
          exists d, moderations w' = moderations Sample.empty ++ [d]
                    /\ duration (doc d) = None
                    /\ sleep_list w' = sleep_list Sample.empty))
  /\ (let (r, w') :=
        observe (Sample.ban Sample.alice (Some "next week") None) Sample.empty in
      attempted (trace w') =
        [bans_fetch_call "100"; reply_with_error_call "Invalid duration"]
      /\ moderations w' = moderations Sample.empty).
Proof.
  apply (ban_handler_duration_default_and_rejection Sample.is_authorized_mod
           Sample.parse_duration Sample.command Sample.alice "next week" None
           Sample.empty);
    reflexivity.
Defined.

Lemma unban_handler_without_active_record_witness :
  let (r, w') :=
    observe (unban_handler Sample.command Sample.bob "appeal") Sample.empty in
  existsb is_removal (attempted (trace w')) = false
  /\ existsb is_success_reply (attempted (trace w')) = false
  /\ moderations w' = moderations Sample.empty
  /\ bans w' = bans Sample.empty
  /\ sleep_list w' = sleep_list Sample.empty
  /\ (exists o rest,
        trace w' =
          (get_member_call, Done)
          :: (findOneAndUpdate_call (active_ban_of Sample.bob)
                (revocation Sample.command "appeal" (now Sample.empty)), Done)
          :: (reply_with_error_call "User is not banned", o)
          :: rest
        /\ (o = Done -> rest = [] /\ r = Ok tt)).
Proof.
  pose proof (unban_handler_without_active_record Sample.command Sample.bob
                "appeal" Sample.empty eq_refl) as H.
  vm_compute in H |- *.
  destruct H as (Hremoval & Hsuccess & Hstore & Hbans & Hsleep & Hreply).
  repeat (split; [assumption|]).
  exact (Hreply eq_refl).
Defined.

Lemma unban_handler_record_without_backend_ban_witness :
  let w := Sample.bob_on_record_only in
  let (r, w') := observe (unban_handler Sample.command Sample.bob "appeal") w in
  (exists pre d post,
      moderations w = pre ++ d :: post
      /\ existsb (matches (active_ban_of Sample.bob)) pre = false
      /\ matches (active_ban_of Sample.bob) d = true
      /\ moderations w' =
           pre ++ apply_update (revocation Sample.command "appeal" (now w)) d :: post
      /\ active (doc (apply_update (revocation Sample.command "appeal" (now w)) d)) = false
      /\ removed (doc (apply_update (revocation Sample.command "appeal" (now w)) d)) =
           Some {| edit_moderator := "1";
                   edit_moderator_name := "Root";
                   edit_reason := Some "appeal";
                   edit_timestamp := 1000 |})
  /\ existsb is_removal (attempted (trace w')) = false
  /\ bans w' = bans w
  /\ sleep_list w' = sleep_list w
  /\ (exists e o rest,
        trace w' =
          (get_member_call, Done)
          :: (findOneAndUpdate_call (active_ban_of Sample.bob)
                (revocation Sample.command "appeal" (now w)), Done)
          :: (bans_fetch_call "200", Raised e)
          :: (reply_with_error_call "User is not banned", o)
          :: rest
        /\ (o = Done -> rest = [] /\ r = Ok tt)).
Proof.
  apply (unban_handler_record_without_backend_ban Sample.command Sample.bob
           "appeal" Sample.bob_on_record_only);
    [reflexivity | reflexivity | left; reflexivity].
Defined.

Lemma unban_handler_success_updates_record_witness :
  let w := Sample.alice_banned in
  let w' := snd (observe (unban_handler Sample.command Sample.alice "appeal") w) in
  exists pre d post,
    moderations w = pre ++ d :: post
    /\ existsb (matches (active_ban_of Sample.alice)) pre = false
    /\ matches (active_ban_of Sample.alice) d = true
    /\ moderations w' =
         pre ++ apply_update (revocation Sample.command "appeal" (now w)) d :: post
    /\ active (doc (apply_update (revocation Sample.command "appeal" (now w)) d)) = false
    /\ removed (doc (apply_update (revocation Sample.command "appeal" (now w)) d)) =
         Some {| edit_moderator := "1";
                 edit_moderator_name := "Root";
                 edit_reason := Some "appeal";
                 edit_timestamp := 1000 |}
    /\ filter is_store_update (attempted (trace w')) =
         [findOneAndUpdate_call (active_ban_of Sample.alice)
            (revocation Sample.command "appeal" (now w))]
    /\ filter_active (active_ban_of Sample.alice) = true
    /\ In (members_unban_call "100" (Some "appeal"), Done) (trace w')
    /\ In (sleep_list_remove_call (_id d), Done) (trace w')
    /\ sleep_list w' =
         filter (fun e => negb (snd e =? _id d)) (sleep_list w).
Proof.
  apply (@unban_handler_success_updates_record Sample.command Sample.alice "appeal"
           Sample.alice_banned
           (snd (observe (unban_handler Sample.command Sample.alice "appeal")
                   Sample.alice_banned))
           (Ok tt));
    vm_compute; reflexivity.
Defined.

(** C7 does not hold as the specification states it: bob has no record in the one world and
    an active record without a ban in the guild in the other, and the caller
    receives the same reply in both. *)
Lemma unban_handler_failures_indistinguishable :
  let absent := observe (unban_handler Sample.command Sample.bob "appeal") Sample.empty in
  let mismatch :=
    observe (unban_handler Sample.command Sample.bob "appeal")
      Sample.bob_on_record_only in
  has_active_ban Sample.bob Sample.empty = false
  /\ has_active_ban Sample.bob Sample.bob_on_record_only = true
  /\ is_banned "200" Sample.bob_on_record_only = false
  /\ replies (trace (snd absent)) = [reply_with_error_call "User is not banned"]
  /\ replies (trace (snd mismatch)) = replies (trace (snd absent)).
Proof.
  vm_compute. repeat split.
Qed.

Lemma unban_handler_failures_share_reply_witness :
  let (r, w') :=
    observe (unban_handler Sample.command Sample.bob "appeal")
      Sample.bob_on_record_only in
  r = Ok tt
  /\ replies (trace w') = [reply_with_error_call "User is not banned"].
Proof.
  apply (unban_handler_failures_share_reply Sample.command Sample.bob "appeal"
           Sample.bob_on_record_only);
    [vm_compute; reflexivity | right; vm_compute; reflexivity].
Defined.

(** C8 does not hold as the specification states it.  In the first run the store update of an
    unban throws and the generic reply is cut short as well: no reply
    reaches the caller, the exception of the store never reaches
    [critical_error], and the handler rejects.  In the second run the reply
    "User is already banned", returned without [await], is cut short: the
    [catch] clause does not run at all. *)
Lemma handlers_lose_exceptions :
  (let w := Sample.with_faults
              [None; Some (Error "store down"); Some (Error "reply down")]
              Sample.alice_banned in
   let (r, w') := observe (unban_handler Sample.command Sample.alice "appeal") w in
   r = Throw (Error "reply down")
   /\ In (findOneAndUpdate_call (active_ban_of Sample.alice)
            (revocation Sample.command "appeal" 1000), Raised (Error "store down"))
         (trace w')
   /\ replies (trace w') = []
   /\ existsb is_sink (attempted (trace w')) = false)
  /\ (let w := Sample.with_faults [None; Some (Error "reply down")]
                 Sample.alice_banned in
      let (r, w') := observe (Sample.ban Sample.alice None None) w in
      r = Throw (Error "reply down")
      /\ attempted (trace w') =
           [bans_fetch_call "100"; reply_with_error_call "User is already banned"]
      /\ replies (trace w') = []
      /\ existsb is_sink (attempted (trace w')) = false).
Proof.
  vm_compute. repeat split. auto.
Qed.

Lemma handlers_catch_awaited_failures_witness :
  let i := unban_invocation Sample.command Sample.alice "appeal" in
  let w := Sample.with_faults [None; Some (Error "store down")] Sample.alice_banned in
  let c := findOneAndUpdate_call (active_ban_of Sample.alice)
             (revocation Sample.command "appeal" 1000) in
  exists pre o,
    trace (snd (observe (run_handler Sample.is_authorized_mod Sample.parse_duration i) w)) =
      pre ++ (c, Raised (Error "store down"))
          :: generic_catch (generic_reply i) (Error "store down") o
    /\ Ok tt = settled_as o.
Proof.
  apply (@handlers_catch_awaited_failures Sample.is_authorized_mod Sample.parse_duration
           (unban_invocation Sample.command Sample.alice "appeal")
           (Sample.with_faults [None; Some (Error "store down")] Sample.alice_banned)
           (snd (observe (unban_handler Sample.command Sample.alice "appeal")
                   (Sample.with_faults [None; Some (Error "store down")]
                      Sample.alice_banned)))
           (Ok tt)
           (findOneAndUpdate_call (active_ban_of Sample.alice)
              (revocation Sample.command "appeal" 1000))
           (Error "store down")).
  - vm_compute. reflexivity.
  - vm_compute. right. left. reflexivity.
  - reflexivity.
Defined.

(** C10 does not hold as the specification states it.  In the first run the post to the staff
    action log throws after the success reply of an unban: the caller
    receives the success reply and then "Error unbanning".  In the second
    run the reply of a ban is cut short: the handler rejects and no reply
    reaches the caller. *)
Lemma handlers_reply_twice_or_never :
  (let w := Sample.with_faults
              [None; None; None; None; None; None; Some (Error "log down")]
              Sample.alice_banned in
   let (r, w') := observe (unban_handler Sample.command Sample.alice "appeal") w in
   r = Ok tt
   /\ replies (trace w') =
        [reply_with_success_action_call Sample.alice "unbanned" false false None;
         reply_with_error_call "Error unbanning"])
  /\ (let w := Sample.with_faults [None; Some (Error "reply down")]
                 Sample.alice_banned in
      let (r, w') := observe (Sample.ban Sample.alice None None) w in
      r = Throw (Error "reply down") /\ replies (trace w') = []).
Proof.
  vm_compute. repeat split.
Qed.

Lemma handlers_reply_when_replies_go_through_witness :
  let i := ban_invocation Sample.command Sample.alice (Some "1h") (Some "spam") in
  let w' := snd (observe (run_handler Sample.is_authorized_mod Sample.parse_duration i)
                   Sample.empty) in
  Ok tt = Ok tt
  /\ (length (replies (trace w')) = 1%nat
      \/ (generic_reply i = "Error unbanning"
          /\ replies (trace w') =
               [reply_with_success_action_call (target_of i) "unbanned"
                  false false None;
                reply_with_error_call "Error unbanning"])).
Proof.
  apply (@handlers_reply_when_replies_go_through Sample.is_authorized_mod
           Sample.parse_duration
           (ban_invocation Sample.command Sample.alice (Some "1h") (Some "spam"))
           Sample.empty
           (snd (observe (Sample.ban Sample.alice (Some "1h") (Some "spam"))
                   Sample.empty))
           (Ok tt));
    vm_compute; reflexivity.
Defined.

(** ** Lists of bans *)

Lemma is_snowflake_refl (s : snowflake) : is_snowflake s s = true.
Proof. apply String.eqb_refl. Qed.

Lemma banned_after_lift_self (t : snowflake) (l : list snowflake) :
  existsb (is_snowflake t) (filter (fun b => negb (is_snowflake t b)) l) = false.
Proof.
  induction l as [|b l IH]; cbn; [reflexivity|].
  destruct (is_snowflake t b) eqn:Hb; cbn; [exact IH|].
  rewrite Hb. exact IH.
Qed.

Lemma banned_after_lift_other (t u : snowflake) (l : list snowflake) :
  u <> t ->
  existsb (is_snowflake u) (filter (fun b => negb (is_snowflake t b)) l)
  = existsb (is_snowflake u) l.
Proof.
  intros Hne. induction l as [|b l IH]; cbn; [reflexivity|].
  destruct (is_snowflake t b) eqn:Hb; cbn.
  - rewrite IH. apply String.eqb_eq in Hb. subst b.
    unfold is_snowflake. apply String.eqb_neq in Hne. rewrite Hne. reflexivity.
  - rewrite IH. reflexivity.
Qed.

Lemma banned_after_ban (t u : snowflake) (l : list snowflake) :
  existsb (is_snowflake u) (l ++ [t])
  = existsb (is_snowflake u) l || is_snowflake u t.
Proof.
  rewrite existsb_app. cbn. rewrite orb_false_r. reflexivity.
Qed.

Lemma fetched_member_id (target : snowflake) (l : list GuildMember) (m : GuildMember) :
  find (fun m => String.eqb (GuildMember_id m) target) l = Some m ->
  GuildMember_id m = target.
Proof.
  intros H. apply find_some in H. destruct H as [_ H].
  apply String.eqb_eq in H. exact H.
Qed.

(** X2.  [is_moderation_applied] on a moderation of another type throws
    [AssertionError] at once: no call is made and the world is as it was. *)
Theorem is_moderation_applied_asserts_type
    (moderation : basic_moderation_with_user) (w : World) :
  basic_type moderation <> this_type ->
  is_moderation_applied moderation w = (Throw AssertionError, w).
Proof.
  intros Htype. apply String.eqb_neq in Htype.
  unfold is_moderation_applied. unfold_calls. rewrite Htype. reflexivity.
Qed.

(** X3.  When the ban fetch is not cut short, [is_moderation_applied] on a
    ban answers whether the guild's ban list holds the user; it makes that
    one call and changes nothing else. *)
Theorem is_moderation_applied_reads_ban_list
    (moderation : basic_moderation_with_user) (w : World) :
  basic_type moderation = this_type ->
  quiet 1 w = true ->
  let (r, w') := observe (is_moderation_applied moderation) w in
  r = Ok (is_banned (basic_user moderation) w)
  /\ attempted (trace w') = [bans_fetch_call (basic_user moderation)]
  /\ bans w' = bans w
  /\ members w' = members w
  /\ moderations w' = moderations w
  /\ sleep_list w' = sleep_list w.
Proof.
  intros Htype Hq.
  unfold is_moderation_applied, bans_fetch, is_banned. rewrite Htype.
  unfold_calls. execute.
  all: try (use_quiet Hq; fail).
  all: conjuncts; reflexivity.
Qed.

(** X4.  [apply_moderation] resolves only when the user of the entry is
    banned afterwards, by a ban call that follows a resolved member fetch
    and carries the reason of the entry; when it rejects, the ban list and
    the member list are untouched.  Either way nobody loses a ban and the
    store is not touched. *)
Theorem apply_moderation_bans_or_leaves (entry : moderation_entry) (w : World) :
  let (r, w') := observe (apply_moderation entry) w in
  match r with
  | Ok _ =>
      is_banned (user entry) w' = true
      /\ trace w' =
           [(M_info_call ("Banning " ++ user_name entry), Done);
            (members_fetch_call (user entry), Done);
            (member_ban_call (user entry) (reason entry), Done)]
  | Throw _ =>
      bans w' = bans w
      /\ members w' = members w
      /\ existsb is_ban (delivered (trace w')) = false
  end
  /\ (forall u, is_banned u w = true -> is_banned u w' = true)
  /\ moderations w' = moderations w.
Proof.
  unfold apply_moderation, members_fetch, member_ban, M_info, is_banned.
  unfold_calls. execute.
  all: repeat match goal with
              | H : find _ _ = Some _ |- _ => apply fetched_member_id in H; rewrite H
              end.
  all: conjuncts; auto.
  all: try (rewrite banned_after_ban, is_snowflake_refl; apply orb_true_r).
  all: intros u Hu; rewrite banned_after_ban, Hu; reflexivity.
Qed.

(** X5.  [remove_moderation] resolves only when the user of the entry is no
    longer banned; when it rejects, the ban list is untouched.  It makes one
    unban call, for that user, and the ban of nobody else changes. *)
Theorem remove_moderation_lifts_or_leaves (entry : WithId) (w : World) :
  let (r, w') := observe (remove_moderation entry) w in
  match r with
  | Ok _ => is_banned (user (doc entry)) w' = false
  | Throw _ => bans w' = bans w
  end
  /\ (exists why,
        filter is_removal (attempted (trace w')) =
          [members_unban_call (user (doc entry)) why])
  /\ (forall u, u <> user (doc entry) -> is_banned u w' = is_banned u w)
  /\ moderations w' = moderations w
  /\ sleep_list w' = sleep_list w.
Proof.
  unfold remove_moderation, members_unban, M_info, is_banned.
  unfold_calls. execute.
  all: conjuncts; auto; try (eexists; reflexivity).
  all: try apply banned_after_lift_self.
  all: intros u Hu; apply banned_after_lift_other; exact Hu.
Qed.

Lemma apply_moderation_resolved_banned (entry : moderation_entry) (w w1 : World) :
  observe (apply_moderation entry) w = (Ok tt, w1) ->
  is_banned (user entry) w1 = true.
Proof.
  unfold apply_moderation, members_fetch, member_ban, M_info, is_banned.
  unfold_calls. execute.
  all: intros Hrun; split_pairs; cbn.
  all: match goal with
       | H : find _ _ = Some _ |- _ => apply fetched_member_id in H; rewrite H
       end.
  all: rewrite banned_after_ban, is_snowflake_refl; apply orb_true_r.
Qed.

Lemma remove_moderation_resolved_lifted (entry : WithId) (w w1 : World) :
  observe (remove_moderation entry) w = (Ok tt, w1) ->
  is_banned (user (doc entry)) w1 = false.
Proof.
  unfold remove_moderation, members_unban, M_info, is_banned.
  unfold_calls. execute.
  all: intros Hrun; split_pairs; cbn.
  all: apply banned_after_lift_self.
Qed.

(** X6.  After [apply_moderation] resolved, [is_moderation_applied] on the
    same ban answers [true] as soon as its fetch is not cut short. *)
Theorem applied_after_apply_moderation
    (entry : moderation_entry) (w w1 : World) :
  type entry = this_type ->
  observe (apply_moderation entry) w = (Ok tt, w1) ->
  hd None (faults w1) = None ->
  fst (is_moderation_applied (as_basic entry) w1) = Ok true.
Proof.
  intros Htype Hrun Hcalm.
  assert (Hbanned : is_banned (user entry) w1 = true).
  { exact (@apply_moderation_resolved_banned _ _ _ Hrun). }
  unfold is_moderation_applied, bans_fetch, as_basic. cbn [basic_type basic_user].
  rewrite Htype. unfold_calls. cbn. rewrite Hcalm. cbn.
  unfold is_banned in Hbanned. cbn in Hbanned. rewrite Hbanned. reflexivity.
Qed.

(** X7.  After [remove_moderation] resolved, [is_moderation_applied] on the
    same ban answers [false], whatever the environment does to the fetch. *)
Theorem not_applied_after_remove_moderation (entry : WithId) (w w1 : World) :
  type (doc entry) = this_type ->
  observe (remove_moderation entry) w = (Ok tt, w1) ->
  fst (is_moderation_applied (as_basic (doc entry)) w1) = Ok false.
Proof.
  intros Htype Hrun.
  assert (Hlifted : is_banned (user (doc entry)) w1 = false).
  { exact (@remove_moderation_resolved_lifted _ _ _ Hrun). }
  unfold is_moderation_applied, bans_fetch, as_basic. cbn [basic_type basic_user].
  rewrite Htype. unfold_calls. cbn.
  unfold is_banned in Hlifted. cbn in Hlifted.
  destruct (hd None (faults w1)); cbn; [reflexivity|].
  rewrite Hlifted. reflexivity.
Qed.

Lemma scheduled_fault (i : nat) (fs : list (option exn)) (e : exn) :
  hd None (Nat.iter i (@tl _) fs) = Some e -> In (Some e) fs.
Proof.
  rewrite iter_tl_skipn. revert fs.
  induction i as [|i IH]; intros [|f fs]; cbn; try discriminate.
  - intros ->. auto.
  - intros H. right. apply IH. exact H.
Qed.

Lemma never_asserts_fault (w : World) (i : nat) :
  never_asserts w = true ->
  hd None (Nat.iter i (@tl _) (faults w)) <> Some AssertionError.
Proof.
  unfold never_asserts. intros Hnever Hfault.
  apply scheduled_fault in Hfault.
  rewrite forallb_forall in Hnever. specialize (Hnever _ Hfault). discriminate.
Qed.

(** A fault of the schedule that would be an [AssertionError]. *)
Ltac no_assertion H :=
  repeat match goal with
         | Hf : hd None ?fs = Some AssertionError |- _ =>
             let i :=
               match fs with
               | faults _ => constr:(0%nat)
               | tl (faults _) => constr:(1%nat)
               | tl (tl (faults _)) => constr:(2%nat)
               | tl (tl (tl (faults _))) => constr:(3%nat)
               | tl (tl (tl (tl (faults _)))) => constr:(4%nat)
               | tl (tl (tl (tl (tl (faults _))))) => constr:(5%nat)
               | tl (tl (tl (tl (tl (tl (faults _)))))) => constr:(6%nat)
               | tl (tl (tl (tl (tl (tl (tl (faults _))))))) => constr:(7%nat)
               end in
             exact (False_ind _ (@never_asserts_fault _ i H Hf))
         end.

Section Extras.

Variable is_authorized_mod : User -> bool.
Variable parse_duration : string -> option number.

(** X1.  A ban of an authorized moderator is answered by "Cannot apply
    moderation to user" and by nothing else: the backend is not asked, and
    the store, the ban list, the member list and the sleep list are as
    before. *)
Theorem ban_handler_rejects_authorized_mod
    (command : TextBasedCommand) (target : User)
    (duration_string why : option string) (w : World) :
  is_authorized_mod target = true ->
  let (r, w') :=
    observe (ban_handler is_authorized_mod parse_duration command target
               duration_string why) w in
  (exists o,
      trace w' = [(reply_with_error_call "Cannot apply moderation to user", o)]
      /\ r = settled_as o)
  /\ moderations w' = moderations w
  /\ bans w' = bans w
  /\ members w' = members w
  /\ sleep_list w' = sleep_list w.
Proof.
  intros Hmod.
  unfold_ban. rewrite Hmod. unfold_calls. execute.
  all: split; [eexists; split; reflexivity|auto].
Qed.


(** X15.  A ban lookup that is cut short counts as "not banned": for a
    target that passes the authorization check and a duration that parses,
    [ban_handler] goes on to the member lookup and the notification even
    when the guild holds a ban for the target already. *)
Theorem ban_handler_proceeds_after_failed_lookup
    (command : TextBasedCommand) (target : User)
    (duration_string why : option string) (span : number) (e : exn) (w : World) :
  is_authorized_mod target = false ->
  parse_nullable_duration parse_duration duration_string = Some span ->
  hd None (faults w) = Some e ->
  hd None (tl (faults w)) = None ->
  hd None (tl (tl (faults w))) = None ->
  let (r, w') :=
    observe (ban_handler is_authorized_mod parse_duration command target
               duration_string why) w in
  exists m rest,
    trace w' =
      (bans_fetch_call (User_id target), Raised e)
      :: (get_member_call, Done)
      :: (notify_user_call target "banned" m, Done)
      :: rest
    /\ ~ In (reply_with_error_call "User is already banned") (attempted (trace w')).
Proof.
  intros Hmod Hparse Hlookup Hmember Hnotify. revert Hparse.
  unfold_ban. rewrite Hmod. unfold_calls. execute.
  all: intros Hparse; try discriminate; try congruence.
  all: repeat match goal with
              | H : Some _ = Some _ |- _ => inversion H; clear H; subst
              end.
  all: do 2 eexists; (split; [reflexivity|]); cbn; intros Hin; in_cases.
Qed.

End Extras.

(** ** Revocation, further *)

Lemma matches_after_revocation (target : User) (command : TextBasedCommand)
    (why : string) (stamp : Z) (d : WithId) :
  matches (active_ban_of target) (apply_update (revocation command why stamp) d) = false.
Proof.
  unfold matches. cbn. apply andb_false_r.
Qed.

Lemma existsb_filter_nil {A} (f : A -> bool) (l : list A) :
  existsb f l = false <-> filter f l = [].
Proof.
  induction l as [|x l IH]; cbn; [tauto|].
  destruct (f x); cbn; [split; discriminate|exact IH].
Qed.

Lemma unban_handler_success_store
    (command : TextBasedCommand) (target : User) (why : string)
    (w w' : World) (r : result unit) :
  observe (unban_handler command target why) w = (r, w') ->
  existsb is_success_reply (replies (trace w')) = true ->
  exists pre d post,
    moderations w = pre ++ d :: post
    /\ existsb (matches (active_ban_of target)) pre = false
    /\ matches (active_ban_of target) d = true
    /\ moderations w' =
         pre ++ apply_update (revocation command why (now w)) d :: post.
Proof.
  unfold active_ban_of, revocation.
  unfold_unban. unfold_calls. execute.
  all: intros Hrun Hsuccess; split_pairs; cbn in *; try discriminate.
  all: store_facts; record_facts; try discriminate.
  all: do 3 eexists; conjuncts; first [eassumption | reflexivity].
Qed.

Lemma unban_handler_absent
    (command : TextBasedCommand) (target : User) (why : string) (w : World) :
  has_active_ban target w = false ->
  let (r, w') := observe (unban_handler command target why) w in
  existsb is_removal (attempted (trace w')) = false
  /\ existsb is_success_reply (attempted (trace w')) = false
  /\ moderations w' = moderations w.
Proof.
  unfold has_active_ban, active_ban_of, revocation. intros Hnone.
  unfold_unban. unfold_calls. execute.
  all: repeat match goal with
              | H : find_one_and_update _ _ _ = _ |- _ =>
                  erewrite find_one_and_update_none in H by exact Hnone;
                  inversion H; clear H; subst
              end.
  all: conjuncts; reflexivity.
Qed.

(** X8.  When the guild's unban throws after the record was flipped, the
    record stays flipped, the pending expiry of the record stays in the
    sleep list, the ban list is as before, the caller receives "Error
    unbanning" and the exception goes to [critical_error]. *)
Theorem unban_handler_backend_failure
    (command : TextBasedCommand) (target : User) (why : string)
    (e : exn) (w : World) :
  quiet 3 w = true ->
  has_active_ban target w = true ->
  is_banned (User_id target) w = true ->
  hd None (tl (tl (tl (faults w)))) = Some e ->
  hd None (tl (tl (tl (tl (faults w))))) = None ->
  let (r, w') := observe (unban_handler command target why) w in
  r = Ok tt
  /\ (exists pre d post,
        moderations w = pre ++ d :: post
        /\ existsb (matches (active_ban_of target)) pre = false
        /\ matches (active_ban_of target) d = true
        /\ moderations w' =
             pre ++ apply_update (revocation command why (now w)) d :: post)
  /\ sleep_list w' = sleep_list w
  /\ bans w' = bans w
  /\ replies (trace w') = [reply_with_error_call "Error unbanning"]
  /\ In (members_unban_call (User_id target) (Some why), Raised e) (trace w')
  /\ In (critical_error_call e, Done) (trace w').
Proof.
  unfold has_active_ban, is_banned, active_ban_of, revocation.
  intros Hq Hsome Hbanned Hunban Hreply.
  unfold_unban. unfold_calls. execute.
  all: try (use_quiet Hq; fail).
  all: store_facts; record_facts; try discriminate; try congruence.
  all: repeat match goal with
              | H : Some _ = Some _ |- _ => inversion H; clear H; subst
              end.
  all: split; [reflexivity|].
  all: split; [do 3 eexists; conjuncts; first [eassumption | reflexivity]|].
  all: conjuncts; try reflexivity; cbn; auto 10.
Qed.

(** X9.  Whatever happens, [unban_handler] asks the guild for at most one
    unban, the one of the requested user with the caller's reason, and the
    ban of no other user changes. *)
Theorem unban_handler_touches_only_target
    (command : TextBasedCommand) (target : User) (why : string) (w : World) :
  let (r, w') := observe (unban_handler command target why) w in
  (filter is_removal (attempted (trace w')) = []
   \/ filter is_removal (attempted (trace w')) =
        [members_unban_call (User_id target) (Some why)])
  /\ (forall u, u <> User_id target -> is_banned u w' = is_banned u w).
Proof.
  unfold is_banned, active_ban_of, revocation.
  unfold_unban. unfold_calls. execute.
  all: store_facts; record_facts; try discriminate.
  all: split; [auto|].
  all: intros other Hother; try reflexivity.
  all: apply banned_after_lift_other; exact Hother.
Qed.

(** X10.  Whatever happens, [unban_handler] leaves the collection as it was
    or replaces the first active ban record of the target by its
    revocation: no record is added or dropped, the records keep their
    identifiers and their order, and a record that is not an active ban of
    the target is never changed. *)
Theorem unban_handler_store_frame
    (command : TextBasedCommand) (target : User) (why : string) (w : World) :
  let (r, w') := observe (unban_handler command target why) w in
  (moderations w' = moderations w
   \/ exists pre d post,
        moderations w = pre ++ d :: post
        /\ existsb (matches (active_ban_of target)) pre = false
        /\ matches (active_ban_of target) d = true
        /\ moderations w' =
             pre ++ apply_update (revocation command why (now w)) d :: post)
  /\ map _id (moderations w') = map _id (moderations w)
  /\ (forall n d,
        nth_error (moderations w) n = Some d ->
        matches (active_ban_of target) d = false ->
        nth_error (moderations w') n = Some d).
Proof.
  unfold active_ban_of, revocation.
  unfold_unban. unfold_calls. execute.
  all: store_facts; record_facts; try discriminate.
  all: try (conjuncts; [left; reflexivity | reflexivity | auto]; fail).
  all: split; [right; do 3 eexists; conjuncts; first [eassumption | reflexivity]|].
  all: match goal with
       | H : moderations _ = _ |- _ => rewrite H
       end.
  all: split; [rewrite !map_app; reflexivity|].
  all: intros n d0 Hnth Hd0.
  all: destruct (Nat.lt_ge_cases n (length pre)) as [Hlt|Hge];
       [ rewrite nth_error_app1 in * by assumption; assumption | ].
  all: rewrite nth_error_app2 in * by assumption.
  all: destruct (n - length pre)%nat; cbn in *; [|assumption].
  all: inversion Hnth; subst; congruence.
Qed.


(** X12.  When the store holds at most one active ban record of the target
    and an unban delivered its success reply, an unban of the same target
    that follows finds no record: it asks the guild for nothing, sends no
    success reply and leaves the store as the first unban left it. *)
Theorem unban_handler_twice
    (command command' : TextBasedCommand) (target : User) (why why' : string)
    (w w1 : World) (r1 : result unit) :
  (count_active target w <= 1)%nat ->
  observe (unban_handler command target why) w = (r1, w1) ->
  existsb is_success_reply (replies (trace w1)) = true ->
  let (r2, w2) := observe (unban_handler command' target why') w1 in
  existsb is_removal (attempted (trace w2)) = false
  /\ existsb is_success_reply (attempted (trace w2)) = false
  /\ moderations w2 = moderations w1.
Proof.
  intros Hcount Hrun Hsuccess.
  destruct (@unban_handler_success_store _ _ _ _ _ _ Hrun Hsuccess)
    as (pre & d & post & Hdocs & Hpre & Hd & Hdocs').
  apply unban_handler_absent.
  unfold has_active_ban. rewrite Hdocs', existsb_app. cbn.
  rewrite Hpre, matches_after_revocation. cbn.
  unfold count_active in Hcount. rewrite Hdocs, filter_app in Hcount.
  cbn in Hcount. rewrite Hd in Hcount.
  apply existsb_filter_nil in Hpre. rewrite Hpre in Hcount. cbn in Hcount.
  apply existsb_filter_nil.
  destruct (filter (matches (active_ban_of target)) post); [reflexivity|].
  cbn in Hcount. lia.
Qed.

Lemma ban_handler_never_asserts
    (is_authorized_mod : User -> bool) (parse_duration : string -> option number)
    (command : TextBasedCommand) (target : User)
    (duration_string why : option string) (w w' : World) (r : result unit) :
  never_asserts w = true ->
  observe (ban_handler is_authorized_mod parse_duration command target
             duration_string why) w = (r, w') ->
  r <> Throw AssertionError
  /\ (forall c, ~ In (c, Raised AssertionError) (trace w'))
  /\ ~ In (critical_error_call AssertionError) (attempted (trace w')).
Proof.
  intros Hnever.
  unfold_ban. unfold_calls. execute.
  all: intros Hrun; split_pairs; conjuncts.
  all: try (intros Hthrow; inversion Hthrow; subst; no_assertion Hnever; fail).
  all: try (intros c Hin; cbn in Hin; in_cases; no_assertion Hnever; fail).
  all: try (intros Hin; cbn in Hin; in_cases; no_assertion Hnever; fail).
Qed.

Lemma unban_handler_never_asserts
    (command : TextBasedCommand) (target : User) (why : string)
    (w w' : World) (r : result unit) :
  never_asserts w = true ->
  observe (unban_handler command target why) w = (r, w') ->
  r <> Throw AssertionError
  /\ (forall c, ~ In (c, Raised AssertionError) (trace w'))
  /\ ~ In (critical_error_call AssertionError) (attempted (trace w')).
Proof.
  intros Hnever.
  unfold_unban. unfold_calls. execute.
  all: intros Hrun; split_pairs; store_facts; record_facts; try discriminate.
  all: conjuncts.
  all: try (intros Hthrow; inversion Hthrow; subst; no_assertion Hnever; fail).
  all: try (intros c Hin; cbn in Hin; in_cases; no_assertion Hnever; fail).
  all: try (intros Hin; cbn in Hin; in_cases; no_assertion Hnever; fail).
Qed.

(** X13.  The type assertion of [is_moderation_applied] holds at both call
    sites: unless the environment itself throws an [AssertionError], no call
    of either handler raises one, none reaches [critical_error], and the
    handler does not reject with one. *)
Theorem handlers_never_fail_the_type_assertion
    (is_authorized_mod : User -> bool) (parse_duration : string -> option number)
    (i : invocation) (w w' : World) (r : result unit) :
  never_asserts w = true ->
  observe (run_handler is_authorized_mod parse_duration i) w = (r, w') ->
  r <> Throw AssertionError
  /\ (forall c, ~ In (c, Raised AssertionError) (trace w'))
  /\ ~ In (critical_error_call AssertionError) (attempted (trace w')).
Proof.
  intros Hnever Hrun.
  destruct i as [command target duration_string why|command target why].
  - exact (@ban_handler_never_asserts _ _ _ _ _ _ _ _ _ Hnever Hrun).
  - exact (@unban_handler_never_asserts _ _ _ _ _ _ Hnever Hrun).
Qed.

(** X16.  When the post to the staff action log throws, the unban stands:
    the ban is lifted, the record is flipped and its pending expiry is gone;
    the caller has received the success reply and receives "Error
    unbanning" after it, and the exception goes to [critical_error]. *)
Theorem unban_handler_audit_failure
    (command : TextBasedCommand) (target : User) (why : string)
    (about : User) (e : exn) (w : World) :
  quiet 6 w = true ->
  has_active_ban target w = true ->
  is_banned (User_id target) w = true ->
  find (fun u => String.eqb (User_id u) (User_id target)) (users w) = Some about ->
  hd None (tl (tl (tl (tl (tl (tl (faults w))))))) = Some e ->
  hd None (tl (tl (tl (tl (tl (tl (tl (faults w)))))))) = None ->
  let (r, w') := observe (unban_handler command target why) w in
  r = Ok tt
  /\ is_banned (User_id target) w' = false
  /\ replies (trace w') =
       [reply_with_success_action_call target "unbanned" false false None;
        reply_with_error_call "Error unbanning"]
  /\ In (critical_error_call e, Done) (trace w')
  /\ exists pre d post,
       moderations w = pre ++ d :: post
       /\ existsb (matches (active_ban_of target)) pre = false
       /\ matches (active_ban_of target) d = true
       /\ moderations w' =
            pre ++ apply_update (revocation command why (now w)) d :: post
       /\ sleep_list w' =
            filter (fun entry => negb (snd entry =? _id d)) (sleep_list w).
Proof.
  unfold has_active_ban, is_banned, active_ban_of, revocation.
  intros Hq Hsome Hbanned Habout Hpost Hreply.
  pose proof (@quiet_call _ _ Hq 4%nat ltac:(lia)) as Hq4.
  pose proof (@quiet_call _ _ Hq 5%nat ltac:(lia)) as Hq5.
  cbn in Hq4, Hq5.
  unfold_unban. unfold_calls. execute.
  all: try (use_quiet Hq; fail).
  all: store_facts; record_facts; try discriminate; try congruence.
  all: repeat match goal with
              | H : Some _ = Some _ |- _ => inversion H; clear H; subst
              end.
  all: conjuncts; try reflexivity; try apply banned_after_lift_self.
  all: try (cbn; auto 12; fail).
  all: do 3 eexists; conjuncts; first [eassumption | reflexivity].
Qed.

(** ** Concrete runs, further *)

Lemma ban_handler_rejects_authorized_mod_witness :
  let (r, w') :=
    observe (Sample.ban Sample.moderator_one (Some "1h") None) Sample.empty in
  (exists o,
      trace w' = [(reply_with_error_call "Cannot apply moderation to user", o)]
      /\ r = settled_as o)
  /\ moderations w' = moderations Sample.empty
  /\ bans w' = bans Sample.empty
  /\ members w' = members Sample.empty
  /\ sleep_list w' = sleep_list Sample.empty.
Proof.
  apply (@ban_handler_rejects_authorized_mod Sample.is_authorized_mod
           Sample.parse_duration Sample.command Sample.moderator_one
           (Some "1h") None Sample.empty).
  reflexivity.
Defined.

Lemma is_moderation_applied_asserts_type_witness :
  is_moderation_applied {| basic_type := "mute"; basic_user := "100" |}
    Sample.alice_banned
  = (Throw AssertionError, Sample.alice_banned).
Proof.
  apply (is_moderation_applied_asserts_type
           {| basic_type := "mute"; basic_user := "100" |} Sample.alice_banned).
  discriminate.
Defined.

Lemma is_moderation_applied_reads_ban_list_witness :
  let (r, w') :=
    observe (is_moderation_applied (ban_of Sample.alice)) Sample.alice_banned in
  r = Ok (is_banned "100" Sample.alice_banned)
  /\ attempted (trace w') = [bans_fetch_call "100"]
  /\ bans w' = bans Sample.alice_banned
  /\ members w' = members Sample.alice_banned
  /\ moderations w' = moderations Sample.alice_banned
  /\ sleep_list w' = sleep_list Sample.alice_banned.
Proof.
  apply (@is_moderation_applied_reads_ban_list (ban_of Sample.alice)
           Sample.alice_banned);
    reflexivity.
Defined.

Lemma applied_after_apply_moderation_witness :
  let entry := doc (Sample.case_of Sample.alice 1 None) in
  fst (is_moderation_applied (as_basic entry)
         (snd (observe (apply_moderation entry) Sample.empty)))
  = Ok true.
Proof.
  apply (@applied_after_apply_moderation
           (doc (Sample.case_of Sample.alice 1 None)) Sample.empty
           (snd (observe (apply_moderation (doc (Sample.case_of Sample.alice 1 None)))
                   Sample.empty)));
    vm_compute; reflexivity.
Defined.

Lemma not_applied_after_remove_moderation_witness :
  let entry := Sample.case_of Sample.alice 1 (Some 3600000) in
  fst (is_moderation_applied (as_basic (doc entry))
         (snd (observe (remove_moderation entry) Sample.alice_banned)))
  = Ok false.
Proof.
  apply (@not_applied_after_remove_moderation
           (Sample.case_of Sample.alice 1 (Some 3600000)) Sample.alice_banned
           (snd (observe (remove_moderation (Sample.case_of Sample.alice 1 (Some 3600000)))
                   Sample.alice_banned)));
    vm_compute; reflexivity.
Defined.

Lemma unban_handler_backend_failure_witness :
  let w := Sample.with_faults [None; None; None; Some (Error "discord down")]
             Sample.alice_banned in
  let (r, w') := observe (unban_handler Sample.command Sample.alice "appeal") w in
  r = Ok tt
  /\ (exists pre d post,
        moderations w = pre ++ d :: post
        /\ existsb (matches (active_ban_of Sample.alice)) pre = false
        /\ matches (active_ban_of Sample.alice) d = true
        /\ moderations w' =
             pre ++ apply_update (revocation Sample.command "appeal" (now w)) d
                 :: post)
  /\ sleep_list w' = sleep_list w
  /\ bans w' = bans w
  /\ replies (trace w') = [reply_with_error_call "Error unbanning"]
  /\ In (members_unban_call "100" (Some "appeal"), Raised (Error "discord down"))
        (trace w')
  /\ In (critical_error_call (Error "discord down"), Done) (trace w').
Proof.
  apply (@unban_handler_backend_failure Sample.command Sample.alice "appeal"
           (Error "discord down")
           (Sample.with_faults [None; None; None; Some (Error "discord down")]
              Sample.alice_banned));
    reflexivity.
Defined.


Lemma unban_handler_twice_witness :
  let w1 := snd (observe (unban_handler Sample.command Sample.alice "appeal")
                   Sample.alice_banned) in
  let (r2, w2) := observe (unban_handler Sample.command Sample.alice "again") w1 in
  existsb is_removal (attempted (trace w2)) = false
  /\ existsb is_success_reply (attempted (trace w2)) = false
  /\ moderations w2 = moderations w1.
Proof.
  apply (@unban_handler_twice Sample.command Sample.command Sample.alice
           "appeal" "again" Sample.alice_banned
           (snd (observe (unban_handler Sample.command Sample.alice "appeal")
                   Sample.alice_banned))
           (Ok tt)).
  - vm_compute. lia.
  - vm_compute. reflexivity.
  - vm_compute. reflexivity.
Defined.

Lemma handlers_never_fail_the_type_assertion_witness :
  let w := Sample.with_faults [None; Some (Error "store down")] Sample.alice_banned in
  let i := unban_invocation Sample.command Sample.alice "appeal" in
  let w' := snd (observe (run_handler Sample.is_authorized_mod
                            Sample.parse_duration i) w) in
  Ok tt <> Throw AssertionError
  /\ (forall c, ~ In (c, Raised AssertionError) (trace w'))
  /\ ~ In (critical_error_call AssertionError) (attempted (trace w')).
Proof.
  apply (@handlers_never_fail_the_type_assertion Sample.is_authorized_mod
           Sample.parse_duration
           (unban_invocation Sample.command Sample.alice "appeal")
           (Sample.with_faults [None; Some (Error "store down")] Sample.alice_banned)
           (snd (observe (unban_handler Sample.command Sample.alice "appeal")
                   (Sample.with_faults [None; Some (Error "store down")]
                      Sample.alice_banned)))
           (Ok tt));
    vm_compute; reflexivity.
Defined.


Lemma ban_handler_proceeds_after_failed_lookup_witness :
  let w := Sample.with_faults [Some (Error "timeout")] Sample.alice_banned in
  is_banned "100" w = true
  /\ let (r, w') := observe (Sample.ban Sample.alice (Some "1h") None) w in
     exists m rest,
       trace w' =
         (bans_fetch_call "100", Raised (Error "timeout"))
         :: (get_member_call, Done)
         :: (notify_user_call Sample.alice "banned" m, Done)
         :: rest
       /\ ~ In (reply_with_error_call "User is already banned")
              (attempted (trace w')).
Proof.
  split; [reflexivity|].
  apply (@ban_handler_proceeds_after_failed_lookup Sample.is_authorized_mod
           Sample.parse_duration Sample.command Sample.alice (Some "1h") None
           (Finite 3600000) (Error "timeout")
           (Sample.with_faults [Some (Error "timeout")] Sample.alice_banned));
    reflexivity.
Defined.

Lemma unban_handler_audit_failure_witness :
  let w := Sample.with_faults
             [None; None; None; None; None; None; Some (Error "log down")]
             Sample.alice_banned in
  let (r, w') := observe (unban_handler Sample.command Sample.alice "appeal") w in
  r = Ok tt
  /\ is_banned "100" w' = false
  /\ replies (trace w') =
       [reply_with_success_action_call Sample.alice "unbanned" false false None;
        reply_with_error_call "Error unbanning"]
  /\ In (critical_error_call (Error "log down"), Done) (trace w')
  /\ exists pre d post,
       moderations w = pre ++ d :: post
       /\ existsb (matches (active_ban_of Sample.alice)) pre = false
       /\ matches (active_ban_of Sample.alice) d = true
       /\ moderations w' =
            pre ++ apply_update (revocation Sample.command "appeal" (now w)) d
                :: post
       /\ sleep_list w' =
            filter (fun entry => negb (snd entry =? _id d)) (sleep_list w).
Proof.
  apply (@unban_handler_audit_failure Sample.command Sample.alice "appeal"
           Sample.alice (Error "log down")
           (Sample.with_faults
              [None; None; None; None; None; None; Some (Error "log down")]
              Sample.alice_banned));
    reflexivity.
Defined.
